(** * pgm_file_viewer.py: the interactive PGM viewer [display_pgm]

    A shallow embedding of [BO_GAIN_EXP_TIMELAPSE_WIFI2/pgm_file_viewer.py].
    The script is one function, [display_pgm], which lists the [.pgm] entries
    of the folder [pgm_files], reads one line from the console, sniffs the
    selected file (magic number, then size) and hands the pixels to
    matplotlib.

    The function is effectful throughout, so it is embedded as a computation
    in a small writer/exit monad: every call that leaves the interpreter
    (print, input, the filesystem, numpy, matplotlib) appends an [event] to a
    trace, and a computation ends with a value, with a [return] of the
    enclosing function or with a raised exception.  What the outside world
    answers is read from a [world] record. *)

From Stdlib Require Import List ZArith Lia Bool Ascii String.
From Stdlib.Strings Require Import Byte.
From Stdlib Require Import DecimalString Permutation Sorted Mergesort Orders.
From Stdlib Require Import RelationClasses DecimalPos DecimalZ.
Import ListNotations.

Local Open Scope string_scope.
Local Open Scope Z_scope.

(** ** Python strings

    A [str] is embedded as a [string] holding its UTF-8 bytes, so that the
    byte-wise order of [String.compare] is the code-point order Python uses
    for [sorted].  [lower] maps the ASCII capital letters only: no other
    code point lower-cases to an ASCII character that occurs in ['.pgm'] or
    ['q'], so the two tests of the script that use [str.lower] are decided by
    the ASCII part. *)

Module PyStr.

Definition is_upper (c : ascii) : bool :=
  ((65 <=? nat_of_ascii c) && (nat_of_ascii c <=? 90))%nat.

Definition lower_char (c : ascii) : ascii :=
  if is_upper c then ascii_of_nat (nat_of_ascii c + 32) else c.

(** [s.lower()] *)
Fixpoint lower (s : string) : string :=
  match s with
  | EmptyString => EmptyString
  | String c s' => String (lower_char c) (lower s')
  end.

(** [s.endswith(suffix)] *)
Definition endswith (s suffix : string) : bool :=
  let n := String.length s in
  let m := String.length suffix in
  ((m <=? n)%nat && String.eqb (substring (n - m) m s) suffix)%bool.

(** [str(n)] and the [{n}] of an f-string, on an [int].  The script prints
    list positions and file sizes only, which stay far below the digit limit
    of the conversion. *)
Definition str (n : Z) : string := NilZero.string_of_int (Z.to_int n).

(** *** [int(s)]: CPython's [PyLong_FromString] in base 10

    Leading white space, an optional sign, digits with single underscores
    between them, trailing white space, end of string; a literal of more
    digits than [sys.get_int_max_str_digits()] is refused as well.  The
    console line is taken to be ASCII text; a byte that is none of the
    characters above makes the literal invalid. *)

(** The default of [sys.get_int_max_str_digits()]; the script leaves it. *)
Definition max_str_digits : nat := 4300.

(** C's [isspace] in the "C" locale, CPython's [Py_ISSPACE]. *)
Definition Py_ISSPACE (c : ascii) : bool :=
  let n := nat_of_ascii c in
  ((n =? 32) || ((9 <=? n) && (n <=? 13)))%nat.

Definition digit_value (c : ascii) : option Z :=
  let n := nat_of_ascii c in
  if ((48 <=? n) && (n <=? 57))%nat then Some (Z.of_nat n - 48) else None.

Definition is_underscore (c : ascii) : bool := Ascii.eqb c "_"%char.

Fixpoint skip_space (s : string) : string :=
  match s with
  | String c s' => if Py_ISSPACE c then skip_space s' else s
  | EmptyString => s
  end.

(** The digit loop: [prev_us] says that the previous character was an
    underscore, [ndigits] counts the digits consumed, [acc] is the value so
    far.  The result is the value, the digit count and the unread rest;
    [None] is the [onError] exit (doubled or trailing underscore). *)
Fixpoint scan_digits (s : string) (prev_us : bool) (ndigits : nat) (acc : Z)
  : option (Z * nat * string) :=
  match s with
  | String c s' =>
      match digit_value c with
      | Some d => scan_digits s' false (S ndigits) (10 * acc + d)
      | None =>
          if is_underscore c
          then if prev_us then None else scan_digits s' true ndigits acc
          else if prev_us then None else Some (acc, ndigits, s)
      end
  | EmptyString => if prev_us then None else Some (acc, ndigits, s)
  end.

Definition split_sign (s : string) : Z * string :=
  match s with
  | String "+"%char s' => (1, s')
  | String "-"%char s' => (-1, s')
  | _ => (1, s)
  end.

(** [int(s)]; [None] stands for the [ValueError] it raises. *)
Definition int (s : string) : option Z :=
  let '(sign, body) := split_sign (skip_space s) in
  match body with
  | String "_"%char _ => None
  | _ =>
      match scan_digits body false 0 0 with
      | Some (v, nd, rest) =>
          if (nd =? 0)%nat then None
          else if (max_str_digits <? nd)%nat then None
          else match skip_space rest with
               | EmptyString => Some (sign * v)
               | _ => None
               end
      | None => None
      end
  end.

End PyStr.

(** ** Python lists *)

Module PyList.

(** [l[i]] for an [int] index: a negative index counts from the end, and an
    index outside [-len(l) .. len(l)-1] raises [IndexError] ([None]). *)
Definition getitem {A : Type} (l : list A) (i : Z) : option A :=
  let n := Z.of_nat (List.length l) in
  let j := if i <? 0 then i + n else i in
  if (j <? 0) || (n <=? j) then None else nth_error l (Z.to_nat j).

(** [enumerate(l, start)] *)
Fixpoint enumerate {A : Type} (l : list A) (start : Z) : list (Z * A) :=
  match l with
  | [] => []
  | x :: l' => (start, x) :: enumerate l' (start + 1)
  end.

End PyList.

(** [sorted] on a list of [str]: ascending in code-point order. *)
Module StrOrder <: TotalLeBool.

Definition t := string.

Definition leb (x y : string) : bool := String.leb x y.

Definition leb_total : forall a1 a2, leb a1 a2 = true \/ leb a2 a1 = true
  := String.leb_total.

End StrOrder.

Module StrSort := Sort StrOrder.

Definition sorted (l : list string) : list string := StrSort.sort l.


(** ** Bytes and arrays *)

(** [b'P5'] and [b'P2'] *)
Definition b_P5 : list byte := [x50; x35].
Definition b_P2 : list byte := [x50; x32].

Definition bytes_eqb (a b : list byte) : bool :=
  if list_eq_dec Byte.byte_eq_dec a b then true else false.

(** [x in l] on a list of [bytes] objects *)
Definition bytes_in (x : list byte) (l : list (list byte)) : bool :=
  existsb (bytes_eqb x) l.

(** Row-major split of a flat buffer into [nrows] rows of [ncols]. *)
Fixpoint rows_of (nrows ncols : nat) (data : list byte) : list (list byte) :=
  match nrows with
  | O => []
  | S r => firstn ncols data :: rows_of r ncols (skipn ncols data)
  end.

(** [np.frombuffer(data, dtype=np.uint8).reshape((nrows, ncols))]: [None] is
    numpy's [ValueError: cannot reshape array of size .. into shape ..]. *)
Definition reshape (data : list byte) (shape : nat * nat)
  : option (list (list byte)) :=
  let '(nrows, ncols) := shape in
  if Z.of_nat (List.length data) =? Z.of_nat nrows * Z.of_nat ncols
  then Some (rows_of nrows ncols data)
  else None.

(** ** Binary file objects *)

Record handle := { data : list byte; pos : nat }.

(** [f.read(n)] *)
Definition f_read (f : handle) (n : nat) : list byte * handle :=
  let got := firstn n (skipn (pos f) (data f)) in
  (got, {| data := data f; pos := pos f + List.length got |}).

(** [f.read()] *)
Definition f_read_all (f : handle) : list byte * handle :=
  let got := skipn (pos f) (data f) in
  (got, {| data := data f; pos := pos f + List.length got |}).

(** [f.seek(offset)] *)
Definition f_seek (f : handle) (offset : nat) : handle :=
  {| data := data f; pos := offset |}.

(** ** Exceptions

    The classes the script can meet that derive from [Exception]; the
    payload is what [str(e)] is built from.  Signals that derive from
    [BaseException] only ([KeyboardInterrupt], [SystemExit]) are not
    errors of a step and are not part of the model. *)
Inductive exn :=
| EOFError                          (* input() at end of input *)
| ValueError_int (literal : string) (* int(literal) refused the literal *)
| IndexError                        (* list index out of range *)
| OSError (filename : string)       (* listdir, getsize or open on a bad path *)
| ValueError_reshape (size : nat)   (* cannot reshape array of size .. *)
| LibraryError (msg : string).      (* raised inside matplotlib *)

(** ** The filesystem *)

(** What the relative path ['pgm_files'] is. *)
Inductive folder_state :=
| Absent                         (* os.path.exists is False *)
| NotListable                    (* exists, but os.listdir raises: a regular
                                    file, or a directory without read access *)
| Listing (names : list string). (* a directory; its entries as enumerated *)

(** What a path below the folder names.  A regular file keeps its content
    for the duration of a run, so the size [os.path.getsize] reports is the
    length of what reading the whole file returns. *)
Inductive fs_node :=
| NoEntry                        (* gone, or a dangling link *)
| Directory (st_size : Z)
| Regular (content : list byte).

(** ** Computations

    A computation yields the events it caused and how it ended: with a
    value, with a [return] statement of [display_pgm], or with an exception
    on its way up. *)

Inductive result (X : Type) :=
| Value (x : X)
| Returns
| Raises (e : exn).

Arguments Value {X} x.
Arguments Returns {X}.
Arguments Raises {X} e.

Section Viewer.

(** The type of the arrays [plt.imread] returns. *)
Context {ndarray : Type}.

(** The value bound to [pixels]. *)
Inductive image :=
| uint8_2d (rows : list (list byte)) (* frombuffer(.., uint8).reshape(..) *)
| decoded (a : ndarray).             (* plt.imread(path) *)

Inductive event :=
| print (line : string)
| print_script_error (e : exn)       (* print(f"Script Error: {e}") *)
| input (prompt : string)
| os_path_getsize (path : string)
| open_rb (path : string)
| read (n : option nat) (got : list byte)
| seek (offset : nat)
| close
| plt_imread (path : string)
| plt_figure (figsize : Z * Z)
| plt_imshow (pixels : image) (cmap : string) (vmin vmax : Z)
| plt_title (label : string)
| plt_colorbar (label : string)
| plt_axis (arg : string)
| plt_show.

Definition M (X : Type) : Type := list event * result X.

Definition ret {X} (x : X) : M X := ([], Value x).

Definition bind {X Y} (m : M X) (k : X -> M Y) : M Y :=
  match m with
  | (t, Value x) => let '(t', r) := k x in ((t ++ t')%list, r)
  | (t, Returns) => (t, Returns)
  | (t, Raises e) => (t, Raises e)
  end.

Notation "x <- m ;; k" := (bind m (fun x => k))
  (at level 61, m at next level, right associativity).
Notation "m ;; k" := (bind m (fun _ => k))
  (at level 61, right associativity).

Definition emit (ev : event) : M unit := ([ev], Value tt).
Definition raise {X} (e : exn) : M X := ([], Raises e).
Definition return_ {X} : M X := ([], Returns).

(** [if c: body] with nothing after it in the branch *)
Definition when (c : bool) (body : M unit) : M unit :=
  if c then body else ret tt.

(** [try: body / except Exception as e: handler] *)
Definition try_except (body : M unit) (handler : exn -> M unit) : M unit :=
  match body with
  | (t, Raises e) => let '(t', r) := handler e in ((t ++ t')%list, r)
  | done => done
  end.

(** Leaving a [with] block runs [__exit__] on every way out. *)
Definition finally {X} (body : M X) (ev : event) : M X :=
  let '(t, r) := body in ((t ++ [ev])%list, r).

(** What the outside world answers during one run. *)
Record world := {
  folder : folder_state;
  node : string -> fs_node;
  stdin : option string;            (* the line typed; None at end of input *)
  imread : string -> exn + ndarray; (* the decoder collaborator *)
  plt_raises : event -> option exn  (* a display call that raises *)
}.

Variable w : world.

Definition os_path_exists : bool :=
  match folder w with Absent => false | _ => true end.

Definition os_listdir : M (list string) :=
  match folder w with
  | Listing names => ret names
  | _ => raise (OSError "pgm_files")
  end.

Definition os_path_join (a b : string) : string := a ++ "/" ++ b.

Definition getsize (path : string) : M Z :=
  emit (os_path_getsize path) ;;
  match node w path with
  | Regular content => ret (Z.of_nat (List.length content))
  | Directory st_size => ret st_size
  | NoEntry => raise (OSError path)
  end.

(** [with open(path, 'rb') as f: body] *)
Definition with_open {X} (path : string) (body : handle -> M X) : M X :=
  emit (open_rb path) ;;
  match node w path with
  | Regular content => finally (body {| data := content; pos := 0 |}) close
  | _ => raise (OSError path)
  end.

Definition input_line (prompt : string) : M string :=
  emit (input prompt) ;;
  match stdin w with
  | Some line => ret line
  | None => raise EOFError
  end.

Definition int (s : string) : M Z :=
  match PyStr.int s with
  | Some n => ret n
  | None => raise (ValueError_int s)
  end.

Definition getitem (l : list string) (i : Z) : M string :=
  match PyList.getitem l i with
  | Some x => ret x
  | None => raise IndexError
  end.

Definition call_imread (path : string) : M image :=
  emit (plt_imread path) ;;
  match imread w path with
  | inr a => ret (decoded a)
  | inl e => raise e
  end.

Definition frombuffer_reshape (raw_data : list byte) (shape : nat * nat)
  : M image :=
  match reshape raw_data shape with
  | Some rows => ret (uint8_2d rows)
  | None => raise (ValueError_reshape (List.length raw_data))
  end.

(** A call into [matplotlib.pyplot] that returns nothing of interest. *)
Definition plt (call : event) : M unit :=
  emit call ;;
  match plt_raises w call with
  | Some e => raise e
  | None => ret tt
  end.

(** *** The script *)

Definition folder_name : string := "pgm_files".

Definition prompt : string :=
  String (ascii_of_nat 10) "Enter file number to view (or 'q' to quit): ".

(** The three arms of the [if]/[elif]/[else] of lines 36-49. *)
Inductive format := StandardHeader | HeadlessRaw | Unknown.

Definition classify (magic : list byte) (file_size : Z) : format :=
  if bytes_in magic [b_P5; b_P2] then StandardHeader
  else if file_size =? 76800 then HeadlessRaw
  else Unknown.

(** Lines 31-49, the body of the [with] block; its value is [pixels]. *)
Definition sniff (path : string) (file_size : Z) (f : handle) : M image :=
  let '(magic, f) := f_read f 2 in
  emit (read (Some 2%nat) magic) ;;
  let f := f_seek f 0 in
  emit (seek 0) ;;
  match classify magic file_size with
  | StandardHeader =>
      emit (print ("Standard " ++ string_of_list_byte magic
                     ++ " header detected.")) ;;
      call_imread path
  | HeadlessRaw =>
      emit (print "No header found. Interpreting as Raw 320x240 grayscale...") ;;
      let '(raw_data, f) := f_read_all f in
      emit (read None raw_data) ;;
      frombuffer_reshape raw_data (240%nat, 320%nat)
  | Unknown =>
      emit (print ("Unknown format. Size is " ++ PyStr.str file_size
                     ++ " bytes (not 76800).")) ;;
      return_
  end.

(** Lines 52-58. *)
Definition visualize (pixels : image) (selected_file : string) : M unit :=
  plt (plt_figure (10, 6)) ;;
  plt (plt_imshow pixels "gray" 0 255) ;;
  plt (plt_title ("Viewing: " ++ selected_file)) ;;
  plt (plt_colorbar "Pixel Intensity (0-255)") ;;
  plt (plt_axis "off") ;;
  plt plt_show.

(** Line 13. *)
Definition is_pgm (f : string) : bool :=
  PyStr.endswith (PyStr.lower f) ".pgm".

Definition discover (names : list string) : list string :=
  sorted (filter is_pgm names).

(** Lines 19-20. *)
Fixpoint print_numbered (l : list (Z * string)) : M unit :=
  match l with
  | [] => ret tt
  | (i, filename) :: l' =>
      emit (print (PyStr.str i ++ ". " ++ filename)) ;;
      print_numbered l'
  end.

(** Lines 23-58, the body of the [try]. *)
Definition view_selected (files : list string) : M unit :=
  selection <- input_line prompt ;;
  when (String.eqb (PyStr.lower selection) "q") return_ ;;
  i <- int selection ;;
  selected_file <- getitem files (i - 1) ;;
  let path := os_path_join folder_name selected_file in
  file_size <- getsize path ;;
  pixels <- with_open path (sniff path file_size) ;;
  visualize pixels selected_file.

Definition display_pgm : M unit :=
  when (negb os_path_exists)
    (emit (print ("Error: Folder '" ++ folder_name ++ "' not found.")) ;;
     return_) ;;
  names <- os_listdir ;;
  let files := discover names in
  when (match files with [] => true | _ => false end)
    (emit (print "No files found.") ;; return_) ;;
  print_numbered (PyList.enumerate files 1) ;;
  try_except (view_selected files)
    (fun e => emit (print_script_error e)).

End Viewer.

Arguments image : clear implicits.
Arguments event : clear implicits.
Arguments world : clear implicits.
Arguments M : clear implicits.

(** ** Vocabulary of the properties *)

Local Open Scope list_scope.

Section Vocabulary.

Context {ndarray : Type}.

(** The lines the numbered listing prints for [files]. *)
Definition listing (files : list string) : list (event ndarray) :=
  map (fun '(i, filename) => print (PyStr.str i ++ ". " ++ filename)%string)
      (PyList.enumerate files 1).

(** The path the script builds for an entry of the folder. *)
Definition path_of (name : string) : string := os_path_join folder_name name.

(** The discovered sequence: what line 13 binds to [files]. *)
Definition candidates (w : world ndarray) : list string :=
  match folder w with
  | Listing names => discover names
  | _ => []
  end.

(** The run reaches line 27 with [selected_file = name]: the line typed is
    not the quit token, [int] accepts it, and it indexes [name]. *)
Definition selects (w : world ndarray) (name : string) : Prop :=
  exists selection i,
    stdin w = Some selection /\
    PyStr.lower selection <> "q"%string /\
    PyStr.int selection = Some i /\
    PyList.getitem (candidates w) (i - 1) = Some name.

(** Lines 28-49 bind [pixels] to [px] for the entry [name]. *)
Definition decodes (w : world ndarray) (name : string) (px : image ndarray)
  : Prop :=
  exists file_size,
    snd (getsize w (path_of name)) = Value file_size /\
    snd (with_open w (path_of name) (sniff w (path_of name) file_size))
    = Value px.

(** What the display collaborator may be handed in a run of [w]. *)
Definition display_ok (w : world ndarray) (ev : event ndarray) : Prop :=
  match ev with
  | plt_imshow px cmap vmin vmax =>
      cmap = "gray"%string /\ vmin = 0 /\ vmax = 255 /\
      exists name, selects w name /\ decodes w name px
  | plt_title label =>
      exists name, selects w name /\ label = ("Viewing: " ++ name)%string
  | plt_colorbar label => label = "Pixel Intensity (0-255)"%string
  | plt_axis arg => arg = "off"%string
  | plt_figure figsize => figsize = (10, 6)
  | _ => True
  end.

(** Every event of a computation satisfies [P]. *)
Definition every {X} (P : event ndarray -> Prop) (m : M ndarray X) : Prop :=
  Forall P (fst m).

(** Events that touch a candidate file: metadata, open, read, decode. *)
Definition touches_file (ev : event ndarray) : bool :=
  match ev with
  | os_path_getsize _ | open_rb _ | read _ _ | seek _ | close
  | plt_imread _ => true
  | _ => false
  end.

(** Calls of the display collaborator. *)
Definition is_display (ev : event ndarray) : bool :=
  match ev with
  | plt_figure _ | plt_imshow _ _ _ _ | plt_title _ | plt_colorbar _
  | plt_axis _ | plt_show => true
  | _ => false
  end.

(** A computation run after the events [t]. *)
Definition after {X} (t : list (event ndarray)) (m : M ndarray X)
  : M ndarray X :=
  (t ++ fst m, snd m).

(** What each arm of lines 36-49 does, the magic number read and the file
    rewound. *)
Definition arm (w : world ndarray) (path : string) (file_size : Z)
    (content : list byte) (fmt : format) : M ndarray (image ndarray) :=
  match fmt with
  | StandardHeader =>
      after [print ("Standard " ++ string_of_list_byte (firstn 2 content)
                      ++ " header detected.")%string]
            (call_imread w path)
  | HeadlessRaw =>
      after [print "No header found. Interpreting as Raw 320x240 grayscale...";
             read None content]
            (frombuffer_reshape content (240%nat, 320%nat))
  | Unknown =>
      ([print ("Unknown format. Size is " ++ PyStr.str file_size
                 ++ " bytes (not 76800).")%string], Returns)
  end.

(** The handler of line 61. *)
Definition report (e : exn) : M ndarray unit := emit (print_script_error e).

(** The file object [open] returns. *)
Definition opened (content : list byte) : handle :=
  {| data := content; pos := 0 |}.

End Vocabulary.

(** [a <= b] in the order of [sorted]. *)
Definition str_le (a b : string) : Prop := String.leb a b = true.

(** ** Fixtures: small worlds to run the script in *)

Definition files_of (fs : list (string * fs_node)) (p : string) : fs_node :=
  match find (fun kv => String.eqb (fst kv) p) fs with
  | Some kv => snd kv
  | None => NoEntry
  end.

(** A world whose decoder returns a token and whose display never fails. *)
Definition quiet_world (dir : folder_state) (fs : list (string * fs_node))
    (line : option string) : world unit :=
  {| folder := dir; node := files_of fs; stdin := line;
     imread := fun _ => inr tt; plt_raises := fun _ => None |}.

(** A raw 320x240 dump, every pixel 128. *)
Definition grey_dump : list byte := repeat x80 (N.to_nat 76800).

(** A minimal binary PGM: [P5 1 1 255] and one pixel. *)
Definition tiny_p5 : list byte :=
  [x50; x35; x0a; x31; x20; x31; x0a; x32; x35; x35; x0a; x00].

(** 500 bytes starting with [XY]. *)
Definition junk_500 : list byte := x58 :: x59 :: repeat x00 498.

Definition scenario_A_fs : list (string * fs_node) :=
  [("pgm_files/a.pgm"%string, Regular junk_500);
   ("pgm_files/b.pgm"%string, Regular tiny_p5)].

Definition scenario_A (line : string) : world unit :=
  quiet_world (Listing ["b.pgm"; "a.pgm"]%string) scenario_A_fs (Some line).

(** As large as a raw dump, but with a [P5] magic number. *)
Definition p5_sized_like_dump : list byte :=
  x50 :: x35 :: repeat x00 (N.to_nat 76798).

Definition scenario_B : world unit :=
  quiet_world (Listing ["dump.pgm"%string])
              [("pgm_files/dump.pgm"%string, Regular grey_dump)]
              (Some "1"%string).


Definition no_folder : world unit := quiet_world Absent [] None.

Definition no_candidates : world unit :=
  quiet_world (Listing ["notes.txt"; "pgm"]%string) [] (Some "1"%string).

(** A world whose decoder rejects [a.pgm] and whose window cannot be
    shown. *)
Definition failing_collaborators (line : string) : world unit :=
  {| folder := Listing ["b.pgm"; "a.pgm"]%string;
     node := files_of
               [("pgm_files/a.pgm"%string, Regular [x50; x32; x0a]);
                ("pgm_files/b.pgm"%string, Regular tiny_p5)];
     stdin := Some line;
     imread := fun path =>
       if String.eqb path "pgm_files/a.pgm"
       then inl (LibraryError "cannot identify image file")
       else inr tt;
     plt_raises := fun call =>
       match call with
       | plt_show => Some (LibraryError "no display")
       | _ => None
       end |}.

(** A numeral of [n] digits, all of them [1]. *)
Definition ones (n : nat) : string :=
  string_of_list_ascii (repeat "1"%char n).

Definition headed_dump : world unit :=
  quiet_world (Listing ["big.pgm"%string])
              [("pgm_files/big.pgm"%string, Regular p5_sized_like_dump)]
              (Some "1"%string).

(** A candidate that is gone by the time it is selected. *)
Definition gone_entry : world unit :=
  quiet_world (Listing ["a.pgm"%string]) [] (Some "1"%string).

(** A directory whose name ends in [.pgm]. *)
Definition directory_entry : world unit :=
  quiet_world (Listing ["d.pgm"%string])
              [("pgm_files/d.pgm"%string, Directory 4096)] (Some "1"%string).

(** A candidate of no bytes. *)
Definition empty_file : world unit :=
  quiet_world (Listing ["e.pgm"%string])
              [("pgm_files/e.pgm"%string, Regular [])] (Some "1"%string).

(** The console is at its end when the prompt is issued. *)
Definition closed_console : world unit :=
  quiet_world (Listing ["a.pgm"%string]) [] None.

(** ** Further vocabulary: what a run touches and what a line may hold *)

Section Observations.

Context {ndarray : Type}.

(** The prompt, [input(..)]. *)
Definition is_input (ev : event ndarray) : bool :=
  match ev with input _ => true | _ => false end.

(** [open(path, 'rb')]. *)
Definition is_open (ev : event ndarray) : bool :=
  match ev with open_rb _ => true | _ => false end.

(** The line the handler of line 61 prints. *)
Definition is_script_error (ev : event ndarray) : bool :=
  match ev with print_script_error _ => true | _ => false end.

(** The paths handed to the filesystem and to the decoder are built from
    the selected entry, a [.pgm] entry of the folder. *)
Definition confined (w : world ndarray) (ev : event ndarray) : Prop :=
  match ev with
  | os_path_getsize p | open_rb p | plt_imread p =>
      exists names name,
        folder w = Listing names /\ In name names /\ is_pgm name = true /\
        selects w name /\ p = ("pgm_files/" ++ name)%string
  | _ => True
  end.

End Observations.

(** The characters [int] can make sense of: white space, a sign, a digit,
    an underscore. *)
Definition numeric_char (c : ascii) : bool :=
  PyStr.Py_ISSPACE c
  || match PyStr.digit_value c with Some _ => true | None => false end
  || PyStr.is_underscore c
  || Ascii.eqb c "+"%char || Ascii.eqb c "-"%char.

Fixpoint all_chars (p : ascii -> bool) (s : string) : bool :=
  match s with
  | EmptyString => true
  | String c s' => p c && all_chars p s'
  end.

(** * Properties *)

(** ** The order of [sorted] *)

Lemma ascii_compare_refl (a : ascii) : Ascii.compare a a = Eq.
Proof. unfold Ascii.compare. apply N.compare_refl. Qed.

Lemma ascii_compare_trans (a b c : ascii) (o : comparison) :
  Ascii.compare a b = o -> Ascii.compare b c = o -> Ascii.compare a c = o.
Proof.
  unfold Ascii.compare. destruct o; intros Hab Hbc.
  - apply N.compare_eq_iff in Hab, Hbc. apply N.compare_eq_iff. congruence.
  - rewrite N.compare_lt_iff in *. lia.
  - rewrite N.compare_gt_iff in *. lia.
Qed.

Lemma string_compare_trans (s1 : string) : forall s2 s3 o,
  String.compare s1 s2 = o -> String.compare s2 s3 = o ->
  String.compare s1 s3 = o.
Proof.
  induction s1 as [|a s1 IH]; intros [|b s2] [|c s3] o; simpl;
    try congruence.
  destruct (Ascii.compare a b) eqn:Hab, (Ascii.compare b c) eqn:Hbc;
    try congruence.
  - apply Ascii.compare_eq_iff in Hab, Hbc. subst.
    rewrite ascii_compare_refl. apply IH.
  - apply Ascii.compare_eq_iff in Hab. subst. now rewrite Hbc.
  - apply Ascii.compare_eq_iff in Hab. subst. now rewrite Hbc.
  - apply Ascii.compare_eq_iff in Hbc. subst. now rewrite Hab.
  - now rewrite (ascii_compare_trans a b c Lt).
  - apply Ascii.compare_eq_iff in Hbc. subst. now rewrite Hab.
  - now rewrite (ascii_compare_trans a b c Gt).
Qed.

Lemma string_leb_trans (s1 s2 s3 : string) :
  String.leb s1 s2 = true -> String.leb s2 s3 = true ->
  String.leb s1 s3 = true.
Proof.
  unfold String.leb.
  destruct (String.compare s1 s2) eqn:H12; try discriminate;
    destruct (String.compare s2 s3) eqn:H23; try discriminate; intros _ _.
  - now rewrite (string_compare_trans s1 s2 s3 Eq).
  - apply String.compare_eq_iff in H12. subst. now rewrite H23.
  - apply String.compare_eq_iff in H23. subst. now rewrite H12.
  - now rewrite (string_compare_trans s1 s2 s3 Lt).
Qed.

Lemma str_le_trans : Transitive str_le.
Proof. intros a b c. apply string_leb_trans. Qed.

Lemma sorted_StronglySorted (l : list string) :
  StronglySorted str_le (sorted l).
Proof. apply StrSort.StronglySorted_sort. exact str_le_trans. Qed.

Lemma sorted_Permutation (l : list string) : Permutation (sorted l) l.
Proof. symmetry. apply StrSort.Permuted_sort. Qed.



(** ** How a run unfolds *)

Section Runs.

Context {ndarray : Type}.
Variable w : world ndarray.

Lemma bind_value {X Y} (t : list (event ndarray)) (x : X)
    (k : X -> M ndarray Y) :
  bind (t, Value x) k = after t (k x).
Proof. unfold bind, after. now destruct (k x). Qed.

Lemma after_after {X} (t t' : list (event ndarray)) (m : M ndarray X) :
  after t (after t' m) = after (t ++ t') m.
Proof. unfold after. simpl. now rewrite app_assoc. Qed.

Lemma after_pair {X} (t t' : list (event ndarray)) (r : result X) :
  after t (t', r) = (t ++ t', r).
Proof. reflexivity. Qed.

Lemma after_nil {X} (m : M ndarray X) : after [] m = m.
Proof. now destruct m. Qed.

Lemma bind_ret {X Y} (x : X) (k : X -> M ndarray Y) : bind (ret x) k = k x.
Proof. unfold ret. rewrite bind_value. apply after_nil. Qed.

Lemma bind_after {X Y} (t : list (event ndarray)) (m : M ndarray X)
    (k : X -> M ndarray Y) :
  bind (after t m) k = after t (bind m k).
Proof.
  destruct m as [t' [x| |e]]; unfold after, bind; simpl; try reflexivity.
  destruct (k x). simpl. now rewrite app_assoc.
Qed.

Lemma bind_emit {Y} (ev : event ndarray) (k : unit -> M ndarray Y) :
  bind (emit ev) k = after [ev] (k tt).
Proof. unfold emit. apply bind_value. Qed.

Lemma bind_returns {X Y} (t : list (event ndarray)) (k : X -> M ndarray Y) :
  bind (t, Returns) k = (t, Returns).
Proof. reflexivity. Qed.

Lemma bind_raises {X Y} (t : list (event ndarray)) (e : exn)
    (k : X -> M ndarray Y) :
  bind (t, Raises e) k = (t, Raises e).
Proof. reflexivity. Qed.

Lemma try_except_after (t : list (event ndarray)) (m : M ndarray unit) h :
  try_except (after t m) h = after t (try_except m h).
Proof.
  destruct m as [t' [x| |e]]; unfold after; simpl; try reflexivity.
  destruct (h e). simpl. now rewrite app_assoc.
Qed.

Lemma print_numbered_enumerate (files : list string) : forall start,
  print_numbered (ndarray := ndarray) (PyList.enumerate files start)
  = (map (fun '(i, filename) =>
            print (PyStr.str i ++ ". " ++ filename)%string)
         (PyList.enumerate files start), Value tt).
Proof.
  induction files as [|f files IH]; intros start; simpl.
  - reflexivity.
  - rewrite IH. reflexivity.
Qed.

Lemma display_pgm_absent :
  folder w = Absent ->
  display_pgm w = ([print "Error: Folder 'pgm_files' not found."], Returns).
Proof. intros H. unfold display_pgm, os_path_exists. now rewrite H. Qed.

Lemma display_pgm_not_listable :
  folder w = NotListable ->
  display_pgm w = ([], Raises (OSError "pgm_files")).
Proof.
  intros H. unfold display_pgm, os_path_exists, os_listdir. now rewrite H.
Qed.

Lemma display_pgm_no_candidates (names : list string) :
  folder w = Listing names -> discover names = [] ->
  display_pgm w = ([print "No files found."], Returns).
Proof.
  intros H E. unfold display_pgm, os_path_exists, os_listdir.
  rewrite H. simpl. now rewrite E.
Qed.

Lemma display_pgm_listed (names : list string) :
  folder w = Listing names -> discover names <> [] ->
  display_pgm w
  = after (listing (discover names))
          (try_except (view_selected w (discover names)) report).
Proof.
  intros H E. unfold display_pgm, os_path_exists, os_listdir.
  rewrite H. simpl.
  destruct (discover names) as [|f files] eqn:D; [congruence|].
  unfold when. rewrite print_numbered_enumerate.
  unfold listing, after, report. simpl.
  destruct (try_except _ _). reflexivity.
Qed.

(** *** The selection, lines 23-26 *)

Lemma view_selected_eof (files : list string) :
  stdin w = None ->
  view_selected w files = ([input prompt], Raises EOFError).
Proof. intros H. unfold view_selected, input_line. now rewrite H. Qed.

Lemma view_selected_quit (files : list string) (selection : string) :
  stdin w = Some selection -> PyStr.lower selection = "q"%string ->
  view_selected w files = ([input prompt], Returns).
Proof.
  intros H Q. unfold view_selected, input_line. rewrite H. simpl.
  now rewrite Q.
Qed.

Lemma view_selected_not_a_number (files : list string) (selection : string) :
  stdin w = Some selection -> PyStr.lower selection <> "q"%string ->
  PyStr.int selection = None ->
  view_selected w files = ([input prompt], Raises (ValueError_int selection)).
Proof.
  intros H Q I. unfold view_selected, input_line, int. rewrite H. simpl.
  apply String.eqb_neq in Q. rewrite Q. simpl. now rewrite I.
Qed.

Lemma view_selected_no_such_index (files : list string) (selection : string)
    (i : Z) :
  stdin w = Some selection -> PyStr.lower selection <> "q"%string ->
  PyStr.int selection = Some i -> PyList.getitem files (i - 1) = None ->
  view_selected w files = ([input prompt], Raises IndexError).
Proof.
  intros H Q I G. unfold view_selected, input_line, int, getitem.
  rewrite H. simpl. apply String.eqb_neq in Q. rewrite Q. simpl.
  rewrite I. simpl. now rewrite G.
Qed.

Lemma view_selected_chosen (files : list string) (selection : string)
    (i : Z) (name : string) :
  stdin w = Some selection -> PyStr.lower selection <> "q"%string ->
  PyStr.int selection = Some i -> PyList.getitem files (i - 1) = Some name ->
  view_selected w files
  = after [input prompt]
      (bind (getsize w (path_of name)) (fun file_size =>
       bind (with_open w (path_of name) (sniff w (path_of name) file_size))
            (fun pixels => visualize w pixels name))).
Proof.
  intros H Q I G. unfold view_selected, input_line, int, getitem.
  rewrite H. simpl. apply String.eqb_neq in Q. rewrite Q. simpl.
  rewrite I. simpl. rewrite G. simpl.
  unfold after, path_of.
  destruct (bind (getsize _ _) _). reflexivity.
Qed.

Lemma chosen_regular (name : string) (content : list byte) :
  node w (path_of name) = Regular content ->
  bind (getsize w (path_of name)) (fun file_size =>
  bind (with_open w (path_of name) (sniff w (path_of name) file_size))
       (fun pixels => visualize w pixels name))
  = after [os_path_getsize (path_of name); open_rb (path_of name)]
      (bind (finally (sniff w (path_of name)
                        (Z.of_nat (List.length content)) (opened content))
                     close)
            (fun pixels => visualize w pixels name)).
Proof.
  intros N. unfold getsize, with_open. rewrite N.
  rewrite bind_emit, bind_after, bind_ret, bind_emit, bind_after, after_after.
  reflexivity.
Qed.

(** *** Sniffing and decoding, lines 30-49 *)

Lemma f_read_opened (content : list byte) (n : nat) :
  fst (f_read (opened content) n) = firstn n content.
Proof. reflexivity. Qed.

Lemma f_seek_rewinds (f : handle) :
  f_seek f 0 = opened (data f).
Proof. reflexivity. Qed.

Lemma f_read_all_opened (content : list byte) :
  fst (f_read_all (opened content)) = content.
Proof. reflexivity. Qed.

Lemma sniff_opened (path : string) (file_size : Z) (content : list byte) :
  sniff w path file_size (opened content)
  = after [read (Some 2%nat) (firstn 2 content); seek 0%nat]
      (arm w path file_size content (classify (firstn 2 content) file_size)).
Proof.
  unfold sniff, f_read, opened, f_seek, f_read_all, arm.
  cbn [pos data skipn].
  rewrite !bind_emit, after_after.
  destruct (classify _ _); reflexivity.
Qed.

Lemma finally_after {X} (t : list (event ndarray)) (m : M ndarray X) ev :
  finally (after t m) ev = after t (finally m ev).
Proof. destruct m. unfold finally, after. simpl. now rewrite app_assoc. Qed.

Lemma getitem_nil {A} (i : Z) : PyList.getitem (@nil A) i = None.
Proof.
  unfold PyList.getitem. simpl.
  destruct (i <? 0) eqn:E.
  - rewrite Z.add_0_r, E. reflexivity.
  - rewrite E. simpl. apply Z.ltb_ge in E. apply Z.leb_le in E. now rewrite E.
Qed.

Lemma selects_listed (name : string) :
  selects w name ->
  exists names, folder w = Listing names /\ candidates w = discover names /\
                discover names <> [].
Proof.
  intros (selection & i & _ & _ & _ & G). unfold candidates in *.
  destruct (folder w) as [| |names];
    try (rewrite getitem_nil in G; discriminate).
  exists names. repeat split. intros E. rewrite E, getitem_nil in G.
  discriminate.
Qed.

(** A run that selects a regular file, up to the three-way branch. *)
Lemma selected_run (name : string) (content : list byte) :
  selects w name -> node w (path_of name) = Regular content ->
  display_pgm w
  = after (listing (candidates w)
             ++ [input prompt; os_path_getsize (path_of name);
                 open_rb (path_of name);
                 read (Some 2%nat) (firstn 2 content); seek 0%nat])
      (try_except
         (bind (finally
                  (arm w (path_of name) (Z.of_nat (List.length content)) content
                     (classify (firstn 2 content)
                        (Z.of_nat (List.length content))))
                  close)
               (fun pixels => visualize w pixels name))
         report).
Proof.
  intros S N. destruct (selects_listed name S) as (names & F & C & NE).
  destruct S as (selection & i & I & Q & P & G).
  rewrite (display_pgm_listed names F NE), C. rewrite C in G.
  rewrite (view_selected_chosen _ selection i name I Q P G).
  rewrite (chosen_regular name content N), sniff_opened.
  rewrite finally_after, bind_after, !after_after, try_except_after.
  rewrite after_after, <- !app_assoc. reflexivity.
Qed.

End Runs.

(** ** Reshaping a flat buffer *)

Lemma rows_of_length (nrows ncols : nat) : forall buf,
  List.length (rows_of nrows ncols buf) = nrows.
Proof. induction nrows; intros; simpl; auto. Qed.

Lemma rows_of_widths (nrows ncols : nat) : forall buf,
  List.length buf = (nrows * ncols)%nat ->
  Forall (fun row => List.length row = ncols) (rows_of nrows ncols buf).
Proof.
  induction nrows as [|r IH]; intros buf L; simpl; constructor.
  - rewrite length_firstn. simpl in L. lia.
  - apply IH. rewrite length_skipn. simpl in L. lia.
Qed.

Lemma rows_of_concat (nrows ncols : nat) : forall buf,
  List.length buf = (nrows * ncols)%nat ->
  List.concat (rows_of nrows ncols buf) = buf.
Proof.
  induction nrows as [|r IH]; intros buf L; simpl.
  - simpl in L. apply length_zero_iff_nil in L. now subst.
  - rewrite IH.
    + apply firstn_skipn.
    + rewrite length_skipn. simpl in L. lia.
Qed.

(** Row-major order: entry [j] of row [i] is byte [i * ncols + j]. *)
Lemma rows_of_row_major (nrows ncols : nat) : forall buf i j,
  (i < nrows)%nat -> (j < ncols)%nat ->
  nth_error (nth i (rows_of nrows ncols buf) []) j
  = nth_error buf (i * ncols + j).
Proof.
  induction nrows as [|r IH]; intros buf i j Hi Hj; [lia|].
  destruct i as [|i]; simpl.
  - rewrite nth_error_firstn. apply Nat.ltb_lt in Hj. now rewrite Hj.
  - rewrite IH by lia. rewrite nth_error_skipn. f_equal. lia.
Qed.

Lemma reshape_raw_dump (buf : list byte) :
  Z.of_nat (List.length buf) = 76800 ->
  reshape buf (240%nat, 320%nat) = Some (rows_of 240 320 buf).
Proof.
  intros L. unfold reshape. rewrite L.
  change (Z.of_nat 240 * Z.of_nat 320) with 76800. reflexivity.
Qed.

Lemma raw_dump_length (buf : list byte) :
  Z.of_nat (List.length buf) = 76800 ->
  List.length buf = (240 * 320)%nat.
Proof.
  intros L. apply Nat2Z.inj. rewrite L. reflexivity.
Qed.

(** ** The three-way branch *)

Lemma bytes_in_pair (x a b : list byte) :
  bytes_in x [a; b] = true <-> x = a \/ x = b.
Proof.
  unfold bytes_in, bytes_eqb. simpl.
  destruct (list_eq_dec byte_eq_dec x a), (list_eq_dec byte_eq_dec x b);
    simpl; intuition congruence.
Qed.

Lemma classify_standard (magic : list byte) (file_size : Z) :
  magic = b_P5 \/ magic = b_P2 -> classify magic file_size = StandardHeader.
Proof.
  intros H. apply bytes_in_pair in H. unfold classify. now rewrite H.
Qed.

Lemma not_standard (magic : list byte) :
  magic <> b_P5 -> magic <> b_P2 -> bytes_in magic [b_P5; b_P2] = false.
Proof.
  intros H5 H2. destruct (bytes_in magic [b_P5; b_P2]) eqn:E; [|reflexivity].
  apply bytes_in_pair in E. tauto.
Qed.

Lemma classify_raw (magic : list byte) (file_size : Z) :
  magic <> b_P5 -> magic <> b_P2 -> file_size = 76800 ->
  classify magic file_size = HeadlessRaw.
Proof.
  intros H5 H2 ->. unfold classify. now rewrite not_standard.
Qed.

Lemma classify_unknown (magic : list byte) (file_size : Z) :
  magic <> b_P5 -> magic <> b_P2 -> file_size <> 76800 ->
  classify magic file_size = Unknown.
Proof.
  intros H5 H2 N. unfold classify. rewrite not_standard by assumption.
  apply Z.eqb_neq in N. now rewrite N.
Qed.

Section Arms.

Context {ndarray : Type}.
Variable w : world ndarray.
Variables (path name : string) (file_size : Z) (content : list byte).

Let rest (fmt : format) : M ndarray unit :=
  try_except
    (bind (finally (arm w path file_size content fmt) close)
          (fun pixels => visualize w pixels name))
    report.

Lemma raw_arm :
  Z.of_nat (List.length content) = 76800 ->
  rest HeadlessRaw
  = after [print "No header found. Interpreting as Raw 320x240 grayscale...";
           read None content; close]
      (try_except (visualize w (uint8_2d (rows_of 240 320 content)) name)
                  report).
Proof.
  intros L. unfold rest, arm, frombuffer_reshape.
  rewrite (reshape_raw_dump _ L). unfold ret.
  rewrite after_pair, app_nil_r. unfold finally. rewrite bind_value.
  rewrite try_except_after. reflexivity.
Qed.

Lemma unknown_arm :
  rest Unknown
  = ([print ("Unknown format. Size is " ++ PyStr.str file_size
               ++ " bytes (not 76800).")%string; close], Returns).
Proof. reflexivity. Qed.

Lemma standard_arm :
  rest StandardHeader
  = after [print ("Standard " ++ string_of_list_byte (firstn 2 content)
                    ++ " header detected.")%string;
           plt_imread path; close]
      match imread w path with
      | inr a => try_except (visualize w (decoded a) name) report
      | inl e => report e
      end.
Proof.
  unfold rest, arm, call_imread.
  destruct (imread w path) as [e|a].
  - reflexivity.
  - rewrite bind_emit, after_after. unfold ret.
    rewrite after_pair, app_nil_r. unfold finally. rewrite bind_value.
    rewrite try_except_after. reflexivity.
Qed.

End Arms.

(** ** The classification claims *)

Section Classification.

Context {ndarray : Type}.
Variable w : world ndarray.

(** C1.  A selected file whose first two bytes are neither [P5] nor [P2] and
    whose size is exactly 76800 takes the Headerless Raw arm.  The file is
    rewound after the two-byte peek, so the bulk read returns the whole
    content, and [pixels] is an array of 240 rows of 320 bytes whose
    row-major flattening is the content of the file: entry [j] of row [i]
    is byte [i * 320 + j]. *)
Theorem headerless_raw_roundtrip (name : string) (content : list byte) :
  selects w name ->
  node w (path_of name) = Regular content ->
  firstn 2 content <> b_P5 -> firstn 2 content <> b_P2 ->
  Z.of_nat (List.length content) = 76800 ->
  classify (firstn 2 content) (Z.of_nat (List.length content)) = HeadlessRaw
  /\ pos (f_seek (snd (f_read (opened content) 2)) 0) = 0%nat
  /\ fst (f_read_all (f_seek (snd (f_read (opened content) 2)) 0)) = content
  /\ display_pgm w
     = after (listing (candidates w)
                ++ [input prompt; os_path_getsize (path_of name);
                    open_rb (path_of name);
                    read (Some 2%nat) (firstn 2 content); seek 0%nat;
                    print "No header found. Interpreting as Raw 320x240 grayscale...";
                    read None content; close])
         (try_except
            (visualize w (uint8_2d (rows_of 240 320 content)) name) report)
  /\ List.length (rows_of 240 320 content) = 240%nat
  /\ Forall (fun row => List.length row = 320%nat) (rows_of 240 320 content)
  /\ List.concat (rows_of 240 320 content) = content
  /\ (forall i j, (i < 240)%nat -> (j < 320)%nat ->
        nth_error (nth i (rows_of 240 320 content) []) j
        = nth_error content (i * 320 + j)).
Proof.
  intros S N H5 H2 L.
  assert (C : classify (firstn 2 content) (Z.of_nat (List.length content))
              = HeadlessRaw) by now apply classify_raw.
  split; [exact C|]. split; [reflexivity|]. split; [reflexivity|].
  split.
  - rewrite (selected_run w name content S N), C, raw_arm by exact L.
    rewrite after_after, <- app_assoc. reflexivity.
  - split; [apply rows_of_length|].
    split; [apply rows_of_widths; now apply raw_dump_length|].
    split; [apply rows_of_concat; now apply raw_dump_length|].
    intros i j. apply rows_of_row_major.
Qed.

(** C2.  A selected file whose first two bytes are [P5] or [P2] takes the
    Standard Header arm whatever its size: the status line names the magic
    number and the file is handed to [plt.imread]. *)
Theorem standard_header_any_size (name : string) (content : list byte) :
  selects w name ->
  node w (path_of name) = Regular content ->
  firstn 2 content = b_P5 \/ firstn 2 content = b_P2 ->
  (forall file_size, classify (firstn 2 content) file_size = StandardHeader)
  /\ display_pgm w
     = after (listing (candidates w)
                ++ [input prompt; os_path_getsize (path_of name);
                    open_rb (path_of name);
                    read (Some 2%nat) (firstn 2 content); seek 0%nat;
                    print ("Standard " ++ string_of_list_byte (firstn 2 content)
                             ++ " header detected.")%string;
                    plt_imread (path_of name); close])
         match imread w (path_of name) with
         | inr a => try_except (visualize w (decoded a) name) report
         | inl e => report e
         end.
Proof.
  intros S N Hm. split.
  - intros file_size. now apply classify_standard.
  - rewrite (selected_run w name content S N), classify_standard by exact Hm.
    rewrite standard_arm, after_after, <- app_assoc. reflexivity.
Qed.


End Classification.

(** *** The claims at the fixtures *)

Lemma headerless_raw_roundtrip_witness :
  classify (firstn 2 grey_dump) (Z.of_nat (List.length grey_dump)) = HeadlessRaw
  /\ pos (f_seek (snd (f_read (opened grey_dump) 2)) 0) = 0%nat
  /\ fst (f_read_all (f_seek (snd (f_read (opened grey_dump) 2)) 0)) = grey_dump
  /\ display_pgm scenario_B
     = after (listing (candidates scenario_B)
                ++ [input prompt; os_path_getsize (path_of "dump.pgm");
                    open_rb (path_of "dump.pgm");
                    read (Some 2%nat) (firstn 2 grey_dump); seek 0%nat;
                    print "No header found. Interpreting as Raw 320x240 grayscale...";
                    read None grey_dump; close])
         (try_except
            (visualize scenario_B (uint8_2d (rows_of 240 320 grey_dump))
                       "dump.pgm") report)
  /\ List.length (rows_of 240 320 grey_dump) = 240%nat
  /\ Forall (fun row => List.length row = 320%nat) (rows_of 240 320 grey_dump)
  /\ List.concat (rows_of 240 320 grey_dump) = grey_dump
  /\ (forall i j, (i < 240)%nat -> (j < 320)%nat ->
        nth_error (nth i (rows_of 240 320 grey_dump) []) j
        = nth_error grey_dump (i * 320 + j)).
Proof.
  apply (headerless_raw_roundtrip scenario_B "dump.pgm" grey_dump).
  - exists "1"%string, 1. repeat split; try reflexivity.
    vm_compute. discriminate.
  - reflexivity.
  - vm_compute. discriminate.
  - vm_compute. discriminate.
  - vm_compute. reflexivity.
Defined.

Lemma standard_header_any_size_witness :
  Z.of_nat (List.length p5_sized_like_dump) = 76800
  /\ (forall file_size,
        classify (firstn 2 p5_sized_like_dump) file_size = StandardHeader)
  /\ display_pgm headed_dump
     = after (listing (candidates headed_dump)
                ++ [input prompt; os_path_getsize (path_of "big.pgm");
                    open_rb (path_of "big.pgm");
                    read (Some 2%nat) (firstn 2 p5_sized_like_dump);
                    seek 0%nat;
                    print ("Standard "
                             ++ string_of_list_byte (firstn 2 p5_sized_like_dump)
                             ++ " header detected.")%string;
                    plt_imread (path_of "big.pgm"); close])
         match imread headed_dump (path_of "big.pgm") with
         | inr a => try_except (visualize headed_dump (decoded a) "big.pgm")
                               report
         | inl e => report e
         end.
Proof.
  split; [vm_compute; reflexivity|].
  apply (standard_header_any_size headed_dump "big.pgm" p5_sized_like_dump).
  - exists "1"%string, 1. repeat split; try reflexivity.
    vm_compute. discriminate.
  - reflexivity.
  - left. reflexivity.
Defined.


(** End-to-end scenario C of the specification: 500 bytes starting [XY]. *)
Example scenario_C_run :
  display_pgm (scenario_A "1")
  = ([print "1. a.pgm"; print "2. b.pgm"; input prompt;
      os_path_getsize "pgm_files/a.pgm"; open_rb "pgm_files/a.pgm";
      read (Some 2%nat) [x58; x59]; seek 0%nat;
      print "Unknown format. Size is 500 bytes (not 76800)."; close],
     Returns).
Proof. vm_compute. reflexivity. Qed.

(** End-to-end scenario B: the array handed on is uniformly 128. *)
Example scenario_B_pixels :
  rows_of 240 320 grey_dump = repeat (repeat x80 320) 240.
Proof. vm_compute. reflexivity. Qed.

(** ** Discovery failures, the quit token and the failure policy *)

Lemma lower_char_q (c : ascii) :
  PyStr.lower_char c = "q"%char -> c = "q"%char \/ c = "Q"%char.
Proof.
  destruct c as [[] [] [] [] [] [] [] []]; vm_compute; intros H;
    try discriminate H; auto.
Qed.

Lemma lower_q (s : string) :
  PyStr.lower s = "q"%string <-> s = "q"%string \/ s = "Q"%string.
Proof.
  split.
  - destruct s as [|c [|c' s]]; simpl; try discriminate.
    intros H. injection H as H. apply lower_char_q in H.
    destruct H; subst; auto.
  - intros [->| ->]; reflexivity.
Qed.

Lemma listing_quiet {ndarray : Type} (files : list string) :
  Forall (fun ev : event ndarray =>
            touches_file ev = false /\ is_display ev = false)
         (listing files).
Proof.
  unfold listing. apply Forall_map, Forall_forall. now intros [i f] _.
Qed.

Section Policy.

Context {ndarray : Type}.
Variable w : world ndarray.

(** C8.  Without the folder the run prints that it was not found and
    returns; with a folder that holds no candidate it prints that no files
    were found and returns.  In both runs that line is the whole trace: no
    listing, no prompt, no file touched. *)
Theorem discovery_failures :
  (folder w = Absent ->
   display_pgm w = ([print "Error: Folder 'pgm_files' not found."], Returns))
  /\ (forall names, folder w = Listing names -> discover names = [] ->
      display_pgm w = ([print "No files found."], Returns)).
Proof.
  split.
  - apply display_pgm_absent.
  - apply display_pgm_no_candidates.
Qed.

(** C7.  When the line typed is [q] or [Q] the run ends at the prompt: the
    trace is the listing and the prompt, the function returns, and no event
    of the run touches a file or the display. *)
Theorem quit_ends_the_run (selection : string) :
  stdin w = Some selection ->
  selection = "q"%string \/ selection = "Q"%string ->
  (candidates w <> [] ->
   display_pgm w = (listing (candidates w) ++ [input prompt], Returns))
  /\ Forall (fun ev => touches_file ev = false /\ is_display ev = false)
            (fst (display_pgm w)).
Proof.
  intros I Q. apply lower_q in Q.
  assert (R : candidates w <> [] ->
              display_pgm w = (listing (candidates w) ++ [input prompt], Returns)).
  { unfold candidates. destruct (folder w) as [| |names] eqn:F;
      try congruence.
    intros NE. rewrite (display_pgm_listed w names F NE).
    now rewrite (view_selected_quit w _ selection I Q). }
  split; [exact R|].
  destruct (folder w) as [| |names] eqn:F.
  - rewrite (display_pgm_absent w F). repeat constructor.
  - rewrite (display_pgm_not_listable w F). constructor.
  - destruct (discover names) as [|f files] eqn:D.
    + rewrite (display_pgm_no_candidates w names F D). repeat constructor.
    + rewrite R.
      * cbn [fst]. apply Forall_app. split; [apply listing_quiet|].
        repeat constructor.
      * unfold candidates. rewrite F, D. discriminate.
Qed.


End Policy.


Lemma discovery_failures_witness :
  display_pgm no_folder
  = ([print "Error: Folder 'pgm_files' not found."], Returns)
  /\ display_pgm no_candidates = ([print "No files found."], Returns).
Proof.
  split.
  - apply (proj1 (discovery_failures no_folder)). reflexivity.
  - apply (proj2 (discovery_failures no_candidates)
                 ["notes.txt"; "pgm"]%string); reflexivity.
Defined.

Lemma quit_ends_the_run_witness :
  (candidates (scenario_A "Q") <> [] ->
   display_pgm (scenario_A "Q")
   = (listing (candidates (scenario_A "Q")) ++ [input prompt], Returns))
  /\ Forall (fun ev => touches_file ev = false /\ is_display ev = false)
            (fst (display_pgm (scenario_A "Q"))).
Proof.
  apply (quit_ends_the_run (scenario_A "Q") "Q"%string).
  - reflexivity.
  - right. reflexivity.
Defined.


Example not_a_number_run :
  display_pgm (scenario_A "abc")
  = ([print "1. a.pgm"; print "2. b.pgm"; input prompt;
      print_script_error (ValueError_int "abc")], Value tt).
Proof. vm_compute. reflexivity. Qed.

Example end_of_input_run :
  display_pgm (quiet_world (Listing ["a.pgm"%string]) [] None)
  = ([print "1. a.pgm"; input prompt; print_script_error EOFError], Value tt).
Proof. vm_compute. reflexivity. Qed.

Example decoder_error_run :
  display_pgm (failing_collaborators "1")
  = ([print "1. a.pgm"; print "2. b.pgm"; input prompt;
      os_path_getsize "pgm_files/a.pgm"; open_rb "pgm_files/a.pgm";
      read (Some 2%nat) [x50; x32]; seek 0%nat;
      print "Standard P2 header detected."; plt_imread "pgm_files/a.pgm";
      close; print_script_error (LibraryError "cannot identify image file")],
     Value tt).
Proof. vm_compute. reflexivity. Qed.

Example display_error_run :
  display_pgm (failing_collaborators "2")
  = ([print "1. a.pgm"; print "2. b.pgm"; input prompt;
      os_path_getsize "pgm_files/b.pgm"; open_rb "pgm_files/b.pgm";
      read (Some 2%nat) [x50; x35]; seek 0%nat;
      print "Standard P5 header detected."; plt_imread "pgm_files/b.pgm";
      close; plt_figure (10, 6); plt_imshow (decoded tt) "gray" 0 255;
      plt_title "Viewing: b.pgm"; plt_colorbar "Pixel Intensity (0-255)";
      plt_axis "off"; plt_show;
      print_script_error (LibraryError "no display")], Value tt).
Proof. vm_compute. reflexivity. Qed.

Example vanished_file_run :
  display_pgm (quiet_world (Listing ["a.pgm"%string]) [] (Some "1"%string))
  = ([print "1. a.pgm"; input prompt; os_path_getsize "pgm_files/a.pgm";
      print_script_error (OSError "pgm_files/a.pgm")], Value tt).
Proof. vm_compute. reflexivity. Qed.

(** ** Typing the number the listing shows *)

Ltac eval_digit :=
  match goal with
  | |- context [PyStr.digit_value ?c] =>
      let v := eval vm_compute in (PyStr.digit_value c) in
      change (PyStr.digit_value c) with v; cbv iota
  end.

Lemma scan_digits_acc (d : Decimal.uint) : forall nd p,
  PyStr.scan_digits (NilEmpty.string_of_uint d) false nd (Zpos p)
  = Some (Zpos (Pos.of_uint_acc d p), (nd + Decimal.nb_digits d)%nat,
          EmptyString).
Proof.
  induction d; intros nd p;
    cbn [NilEmpty.string_of_uint PyStr.scan_digits Pos.of_uint_acc
         Decimal.nb_digits];
    try (eval_digit; rewrite Nat.add_succ_r, <- Nat.add_succ_l, <- IHd;
         f_equal; lia).
  now rewrite Nat.add_0_r.
Qed.

Lemma scan_digits_uint (d : Decimal.uint) : forall nd,
  PyStr.scan_digits (NilEmpty.string_of_uint d) false nd 0
  = Some (Z.of_N (Pos.of_uint d), (nd + Decimal.nb_digits d)%nat,
          EmptyString).
Proof.
  induction d; intros nd;
    cbn [NilEmpty.string_of_uint PyStr.scan_digits Pos.of_uint
         Decimal.nb_digits];
    try (eval_digit; cbn [Z.of_N];
         rewrite Nat.add_succ_r, <- Nat.add_succ_l;
         first [ rewrite <- IHd; reflexivity
               | rewrite <- scan_digits_acc; reflexivity ]).
  now rewrite Nat.add_0_r.
Qed.

Lemma int_of_scan (sign v : Z) (s body : string) (nd : nat) :
  PyStr.split_sign (PyStr.skip_space s) = (sign, body) ->
  (forall r, body <> String "_"%char r) ->
  PyStr.scan_digits body false 0 0 = Some (v, nd, EmptyString) ->
  (0 < nd <= PyStr.max_str_digits)%nat ->
  PyStr.int s = Some (sign * v).
Proof.
  intros Hs Hu Hd Hn. unfold PyStr.int. rewrite Hs.
  assert (E : (nd =? 0)%nat = false) by (apply Nat.eqb_neq; lia).
  assert (E' : (PyStr.max_str_digits <? nd)%nat = false)
    by (apply Nat.ltb_ge; lia).
  destruct body as [|c r].
  - now rewrite Hd, E, E'.
  - destruct c as [[] [] [] [] [] [] [] []];
      try (exfalso; apply (Hu r); reflexivity);
      now rewrite Hd, E, E'.
Qed.

Lemma int_numeral (d : Decimal.uint) :
  d <> Decimal.Nil ->
  (Decimal.nb_digits d <= PyStr.max_str_digits)%nat ->
  PyStr.int (NilEmpty.string_of_uint d) = Some (Z.of_N (Pos.of_uint d))
  /\ PyStr.int (String "-" (NilEmpty.string_of_uint d))
     = Some (- Z.of_N (Pos.of_uint d)).
Proof.
  intros NN Hmax. pose proof (scan_digits_uint d 0) as S.
  assert (Hpos : (0 < Decimal.nb_digits d)%nat)
    by (destruct d; try congruence; simpl; lia).
  assert (Hu : forall r, NilEmpty.string_of_uint d <> String "_"%char r)
    by (destruct d; try congruence; intros r H; discriminate H).
  split.
  - rewrite <- (Z.mul_1_l (Z.of_N _)).
    apply (int_of_scan 1 _ _ (NilEmpty.string_of_uint d) _ ) with (3 := S);
      [|assumption|simpl; lia].
    destruct d; try congruence; reflexivity.
  - replace (- Z.of_N (Pos.of_uint d)) with (-1 * Z.of_N (Pos.of_uint d))
      by lia.
    apply (int_of_scan (-1) _ _ (NilEmpty.string_of_uint d) _) with (3 := S);
      [|assumption|simpl; lia].
    reflexivity.
Qed.

Lemma length_string_of_uint (d : Decimal.uint) :
  String.length (NilEmpty.string_of_uint d) = Decimal.nb_digits d.
Proof. induction d; simpl; congruence. Qed.

(** Typing a number as [str] prints it selects that number, as long as the
    numeral stays within the digit limit. *)
Lemma int_str (k : Z) :
  (String.length (PyStr.str (Z.abs k)) <= PyStr.max_str_digits)%nat ->
  PyStr.int (PyStr.str k) = Some k.
Proof.
  unfold PyStr.str. destruct k as [|p|p]; [reflexivity| |];
    cbn [Z.to_int Z.abs NilZero.string_of_int]; unfold NilZero.string_of_uint;
    pose proof (DecimalPos.Unsigned.to_uint_nonnil p) as NN; intros L;
    assert (Hmax : (Decimal.nb_digits (Pos.to_uint p)
                    <= PyStr.max_str_digits)%nat)
      by (rewrite <- length_string_of_uint;
          destruct (Pos.to_uint p); try congruence; exact L);
    destruct (int_numeral _ NN Hmax) as [P N];
    rewrite DecimalPos.Unsigned.of_to in P, N;
    destruct (Pos.to_uint p); try congruence; assumption.
Qed.

(** ** Names that end in [.pgm] *)









(** ** Indexing the candidates *)

Lemma getitem_from_start {A} (l : list A) (i : Z) :
  0 <= i < Z.of_nat (List.length l) ->
  PyList.getitem l i = nth_error l (Z.to_nat i).
Proof.
  intros H. unfold PyList.getitem. cbv zeta.
  assert (E1 : (i <? 0) = false) by (apply Z.ltb_ge; lia).
  assert (E2 : (Z.of_nat (List.length l) <=? i) = false)
    by (apply Z.leb_gt; lia).
  now rewrite !E1, E2.
Qed.

Lemma getitem_from_end {A} (l : list A) (i : Z) :
  - Z.of_nat (List.length l) <= i < 0 ->
  PyList.getitem l i = nth_error l (Z.to_nat (i + Z.of_nat (List.length l))).
Proof.
  intros H. unfold PyList.getitem. cbv zeta.
  assert (E1 : (i <? 0) = true) by (apply Z.ltb_lt; lia).
  assert (E2 : (i + Z.of_nat (List.length l) <? 0) = false)
    by (apply Z.ltb_ge; lia).
  assert (E3 : (Z.of_nat (List.length l) <=? i + Z.of_nat (List.length l))
               = false) by (apply Z.leb_gt; lia).
  now rewrite !E1, E2, E3.
Qed.

Lemma getitem_out_of_range {A} (l : list A) (i : Z) :
  Z.of_nat (List.length l) <= i \/ i < - Z.of_nat (List.length l) ->
  PyList.getitem l i = None.
Proof.
  intros H. unfold PyList.getitem. cbv zeta.
  destruct (Z.ltb_spec i 0) as [N|N].
  - assert (E : (i + Z.of_nat (List.length l) <? 0) = true)
      by (apply Z.ltb_lt; lia).
    now rewrite E.
  - assert (E : (Z.of_nat (List.length l) <=? i) = true)
      by (apply Z.leb_le; lia).
    now rewrite E, orb_true_r.
Qed.

Lemma nth_error_in_range {A} (l : list A) (n : nat) :
  (n < List.length l)%nat -> exists x, nth_error l n = Some x.
Proof.
  intros H. destruct (nth_error l n) eqn:E; [eauto|].
  apply nth_error_None in E. lia.
Qed.

Lemma int_is_not_quit (s : string) (k : Z) :
  PyStr.int s = Some k -> PyStr.lower s <> "q"%string.
Proof.
  intros I Q. apply lower_q in Q as [->| ->]; discriminate I.
Qed.

Lemma listing_nth {ndarray : Type} (files : list string) : forall start i,
  nth_error
    (map (fun '(n, filename) =>
            print (ndarray := ndarray) (PyStr.str n ++ ". " ++ filename)%string)
         (PyList.enumerate files start)) i
  = option_map
      (fun name => print (PyStr.str (start + Z.of_nat i) ++ ". " ++ name)%string)
      (nth_error files i).
Proof.
  induction files as [|f files IH]; intros start [|i]; try reflexivity.
  - simpl. now rewrite Z.add_0_r.
  - cbn [PyList.enumerate map nth_error]. rewrite IH.
    replace (start + 1 + Z.of_nat i) with (start + Z.of_nat (S i)) by lia.
    reflexivity.
Qed.

(** ** Discovery, numbering and selection *)

Section Discovery.

Context {ndarray : Type}.
Variable w : world ndarray.

Lemma discover_Permutation (names : list string) :
  Permutation (discover names) (filter is_pgm names).
Proof. apply sorted_Permutation. Qed.

Lemma discover_In (names : list string) (f : string) :
  In f (discover names) <-> In f names /\ is_pgm f = true.
Proof.
  rewrite <- filter_In. split; apply Permutation_in;
    [|symmetry]; apply discover_Permutation.
Qed.


(** A line that [int] reads as [k] with [1 <= k <= len(files)] runs lines
    27-58 with [selected_file] the [k]-th candidate. *)
Lemma selection_in_range (selection : string) (k : Z) :
  stdin w = Some selection -> PyStr.int selection = Some k ->
  1 <= k <= Z.of_nat (List.length (candidates w)) ->
  exists name,
    nth_error (candidates w) (Z.to_nat (k - 1)) = Some name /\
    selects w name.
Proof.
  intros I P R.
  destruct (nth_error_in_range (candidates w) (Z.to_nat (k - 1)))
    as [name E]; [lia|].
  exists name. split; [exact E|].
  exists selection, k. repeat split; try assumption.
  - now apply int_is_not_quit with k.
  - rewrite getitem_from_start by lia. exact E.
Qed.

Lemma selected_rest (name : string) :
  selects w name ->
  display_pgm w
  = after (listing (candidates w) ++ [input prompt])
      (try_except
         (bind (getsize w (path_of name)) (fun file_size =>
          bind (with_open w (path_of name) (sniff w (path_of name) file_size))
               (fun pixels => visualize w pixels name)))
         report).
Proof.
  intros S. destruct (selects_listed w name S) as (names & F & C & NE).
  destruct S as (selection & i & I & Q & P & G).
  rewrite (display_pgm_listed w names F NE), C. rewrite C in G.
  rewrite (view_selected_chosen w _ selection i name I Q P G).
  now rewrite try_except_after, after_after.
Qed.


End Discovery.


(** End-to-end scenario A of the specification: the folder enumerates
    [b.pgm] before [a.pgm]; the listing shows [a.pgm] first, and the line
    [2] opens and decodes [b.pgm]. *)
Example scenario_A_run :
  display_pgm (scenario_A "2")
  = ([print "1. a.pgm"; print "2. b.pgm"; input prompt;
      os_path_getsize "pgm_files/b.pgm"; open_rb "pgm_files/b.pgm";
      read (Some 2%nat) [x50; x35]; seek 0%nat;
      print "Standard P5 header detected."; plt_imread "pgm_files/b.pgm";
      close; plt_figure (10, 6); plt_imshow (decoded tt) "gray" 0 255;
      plt_title "Viewing: b.pgm"; plt_colorbar "Pixel Intensity (0-255)";
      plt_axis "off"; plt_show], Value tt).
Proof. vm_compute. reflexivity. Qed.

(** ** Selections outside the listing *)

Section Selection.

Context {ndarray : Type}.
Variable w : world ndarray.

(** A line that is not a number, or a number above [len(files)] or at most
    [-len(files)], is reported by the handler and no file is touched. *)
Lemma selection_rejected (selection : string) :
  candidates w <> [] ->
  stdin w = Some selection ->
  PyStr.lower selection <> "q"%string ->
  PyStr.int selection = None \/
  (exists k, PyStr.int selection = Some k /\
             (Z.of_nat (List.length (candidates w)) < k \/
              k <= - Z.of_nat (List.length (candidates w)))) ->
  exists e,
    display_pgm w
    = (listing (candidates w) ++ [input prompt; print_script_error e],
       Value tt).
Proof.
  intros NE I Q H.
  assert (L : display_pgm w
              = after (listing (candidates w))
                      (try_except (view_selected w (candidates w)) report)).
  { unfold candidates in *. destruct (folder w) as [| |names] eqn:F;
      try congruence.
    exact (display_pgm_listed w names F NE). }
  destruct H as [N | (k & P & R)].
  - exists (ValueError_int selection).
    now rewrite L, (view_selected_not_a_number w _ selection I Q N).
  - exists IndexError. rewrite L.
    rewrite (view_selected_no_such_index w _ selection k I Q P);
      [reflexivity|].
    apply getitem_out_of_range. lia.
Qed.

(** A line that reads as [0] or as a negative number above [-len(files)]
    is accepted: the index [k - 1] is negative and counts from the end of
    the list. *)
Lemma selection_wraps_around (selection : string) (k : Z) :
  stdin w = Some selection -> PyStr.int selection = Some k ->
  - Z.of_nat (List.length (candidates w)) < k <= 0 ->
  exists name,
    nth_error (candidates w)
              (Z.to_nat (k - 1 + Z.of_nat (List.length (candidates w))))
    = Some name /\
    selects w name.
Proof.
  intros I P R.
  destruct (nth_error_in_range (candidates w)
              (Z.to_nat (k - 1 + Z.of_nat (List.length (candidates w)))))
    as [name E]; [lia|].
  exists name. split; [exact E|].
  exists selection, k. repeat split; try assumption.
  - now apply int_is_not_quit with k.
  - rewrite getitem_from_end by lia. exact E.
Qed.

End Selection.

(** C3 fails on the code.  With two candidates listed as [1. a.pgm] and
    [2. b.pgm], the line [0] is outside the listing, yet the run reports
    nothing: [files[0 - 1]] is the last candidate, and [b.pgm] is opened,
    decoded and displayed. *)
Theorem zero_selects_the_last_file :
  display_pgm (scenario_A "0")
  = ([print "1. a.pgm"; print "2. b.pgm"; input prompt;
      os_path_getsize "pgm_files/b.pgm"; open_rb "pgm_files/b.pgm";
      read (Some 2%nat) [x50; x35]; seek 0%nat;
      print "Standard P5 header detected."; plt_imread "pgm_files/b.pgm";
      close; plt_figure (10, 6); plt_imshow (decoded tt) "gray" 0 255;
      plt_title "Viewing: b.pgm"; plt_colorbar "Pixel Intensity (0-255)";
      plt_axis "off"; plt_show], Value tt).
Proof. vm_compute. reflexivity. Qed.

Example minus_one_selects_the_first_of_two :
  display_pgm (scenario_A "-1")
  = ([print "1. a.pgm"; print "2. b.pgm"; input prompt;
      os_path_getsize "pgm_files/a.pgm"; open_rb "pgm_files/a.pgm";
      read (Some 2%nat) [x58; x59]; seek 0%nat;
      print "Unknown format. Size is 500 bytes (not 76800)."; close],
     Returns).
Proof. vm_compute. reflexivity. Qed.

Example three_of_two_is_rejected :
  display_pgm (scenario_A "3")
  = ([print "1. a.pgm"; print "2. b.pgm"; input prompt;
      print_script_error IndexError], Value tt).
Proof. vm_compute. reflexivity. Qed.

Example minus_two_of_two_is_rejected :
  display_pgm (scenario_A "-2")
  = ([print "1. a.pgm"; print "2. b.pgm"; input prompt;
      print_script_error IndexError], Value tt).
Proof. vm_compute. reflexivity. Qed.

(** ** What the branch depends on *)

(** C10.  Two files that agree on their first two bytes and on their size
    are classified alike, whatever their paths, the rest of their content
    and the worlds they live in: the magic number read, the rewind and the
    status line (the size reported with it) are the same, and so is the arm
    taken, [plt.imread] on the Standard Header arm, the bulk read on the
    Headerless Raw arm, the [return] on the Unknown arm. *)
Theorem classification_depends_on_magic_and_size {ndarray : Type}
    (w1 w2 : world ndarray) (path1 path2 : string)
    (content1 content2 : list byte) :
  firstn 2 content1 = firstn 2 content2 ->
  List.length content1 = List.length content2 ->
  classify (firstn 2 content1) (Z.of_nat (List.length content1))
  = classify (firstn 2 content2) (Z.of_nat (List.length content2))
  /\ firstn 3 (fst (sniff w1 path1 (Z.of_nat (List.length content1))
                      (opened content1)))
     = firstn 3 (fst (sniff w2 path2 (Z.of_nat (List.length content2))
                        (opened content2)))
  /\ (In (plt_imread path1)
         (fst (sniff w1 path1 (Z.of_nat (List.length content1))
                 (opened content1)))
      <-> In (plt_imread path2)
             (fst (sniff w2 path2 (Z.of_nat (List.length content2))
                     (opened content2))))
  /\ (In (read None content1)
         (fst (sniff w1 path1 (Z.of_nat (List.length content1))
                 (opened content1)))
      <-> In (read None content2)
             (fst (sniff w2 path2 (Z.of_nat (List.length content2))
                     (opened content2))))
  /\ (snd (sniff w1 path1 (Z.of_nat (List.length content1))
             (opened content1)) = Returns
      <-> snd (sniff w2 path2 (Z.of_nat (List.length content2))
                 (opened content2)) = Returns).
Proof.
  intros Hm Hl. rewrite !sniff_opened, <- Hm, <- Hl.
  split; [reflexivity|].
  destruct (classify (firstn 2 content1) (Z.of_nat (List.length content1)));
    unfold arm, call_imread, frombuffer_reshape;
    rewrite ?bind_emit, <- ?Hm.
  - destruct (imread w1 path1), (imread w2 path2); cbn;
      (split; [reflexivity|]); repeat split; intros H;
      try discriminate H; intuition (discriminate || auto).
  - destruct (reshape content1 (240%nat, 320%nat)),
             (reshape content2 (240%nat, 320%nat)); cbn;
      (split; [reflexivity|]); repeat split; intros H;
      try discriminate H; intuition (discriminate || auto).
  - cbn.
    (split; [reflexivity|]); repeat split; intros H;
      try discriminate H; intuition (discriminate || auto).
Qed.

Lemma classification_depends_on_magic_and_size_witness :
  classify (firstn 2 junk_500) (Z.of_nat (List.length junk_500))
  = classify (firstn 2 (x58 :: x59 :: repeat xff 498))
             (Z.of_nat (List.length (x58 :: x59 :: repeat xff 498)))
  /\ firstn 3 (fst (sniff (scenario_A "1") "pgm_files/a.pgm"
                      (Z.of_nat (List.length junk_500)) (opened junk_500)))
     = firstn 3 (fst (sniff scenario_B "elsewhere/z.pgm"
                        (Z.of_nat (List.length (x58 :: x59 :: repeat xff 498)))
                        (opened (x58 :: x59 :: repeat xff 498))))
  /\ (In (plt_imread "pgm_files/a.pgm")
         (fst (sniff (scenario_A "1") "pgm_files/a.pgm"
                 (Z.of_nat (List.length junk_500)) (opened junk_500)))
      <-> In (plt_imread "elsewhere/z.pgm")
             (fst (sniff scenario_B "elsewhere/z.pgm"
                     (Z.of_nat (List.length (x58 :: x59 :: repeat xff 498)))
                     (opened (x58 :: x59 :: repeat xff 498)))))
  /\ (In (read None junk_500)
         (fst (sniff (scenario_A "1") "pgm_files/a.pgm"
                 (Z.of_nat (List.length junk_500)) (opened junk_500)))
      <-> In (read None (x58 :: x59 :: repeat xff 498))
             (fst (sniff scenario_B "elsewhere/z.pgm"
                     (Z.of_nat (List.length (x58 :: x59 :: repeat xff 498)))
                     (opened (x58 :: x59 :: repeat xff 498)))))
  /\ (snd (sniff (scenario_A "1") "pgm_files/a.pgm"
             (Z.of_nat (List.length junk_500)) (opened junk_500)) = Returns
      <-> snd (sniff scenario_B "elsewhere/z.pgm"
                 (Z.of_nat (List.length (x58 :: x59 :: repeat xff 498)))
                 (opened (x58 :: x59 :: repeat xff 498))) = Returns).
Proof.
  apply (classification_depends_on_magic_and_size
           (scenario_A "1") scenario_B "pgm_files/a.pgm" "elsewhere/z.pgm"
           junk_500 (x58 :: x59 :: repeat xff 498)).
  - reflexivity.
  - vm_compute. reflexivity.
Defined.

(** ** What the display is handed *)

Section Every.

Context {ndarray : Type}.
Variable P : event ndarray -> Prop.

Lemma every_ret {X} (x : X) : every P (ret x).
Proof. constructor. Qed.

Lemma every_raise {X} (e : exn) : every P (raise (X := X) e).
Proof. constructor. Qed.

Lemma every_return {X} : every P (return_ (X := X)).
Proof. constructor. Qed.

Lemma every_emit (ev : event ndarray) : P ev -> every P (emit ev).
Proof. intros H. unfold every. simpl. auto. Qed.

Lemma every_bind {X Y} (m : M ndarray X) (k : X -> M ndarray Y) :
  every P m -> (forall x, snd m = Value x -> every P (k x)) ->
  every P (bind m k).
Proof.
  unfold every. destruct m as [t [x| |e]]; simpl; intros Hm Hk; auto.
  specialize (Hk x eq_refl). destruct (k x). simpl in *.
  apply Forall_app. auto.
Qed.

Lemma every_when (c : bool) (body : M ndarray unit) :
  every P body -> every P (when c body).
Proof. destruct c; simpl; auto using every_ret. Qed.

Lemma every_try_except (body : M ndarray unit) h :
  every P body -> (forall e, snd body = Raises e -> every P (h e)) ->
  every P (try_except body h).
Proof.
  unfold every. destruct body as [t [x| |e]]; simpl; intros Hm Hk; auto.
  specialize (Hk e eq_refl). destruct (h e). simpl in *.
  apply Forall_app. auto.
Qed.

Lemma every_finally {X} (body : M ndarray X) (ev : event ndarray) :
  every P body -> P ev -> every P (finally body ev).
Proof.
  unfold every. destruct body as [t r]. simpl. intros. apply Forall_app. auto.
Qed.

Lemma every_after {X} (t : list (event ndarray)) (m : M ndarray X) :
  Forall P t -> every P m -> every P (after t m).
Proof. unfold every. simpl. intros. apply Forall_app. auto. Qed.

End Every.

Lemma every_impl {ndarray X} (P Q : event ndarray -> Prop) (m : M ndarray X) :
  (forall ev, P ev -> Q ev) -> every P m -> every Q m.
Proof. intros H. apply Forall_impl. exact H. Qed.

Section Display.

Context {ndarray : Type}.
Variable w : world ndarray.

Let quiet (ev : event ndarray) : Prop := is_display ev = false.

Lemma quiet_display_ok (ev : event ndarray) : quiet ev -> display_ok w ev.
Proof. destruct ev; simpl; intros H; try discriminate H; exact I. Qed.

Lemma quiet_getsize (path : string) : every quiet (getsize w path).
Proof.
  unfold getsize. apply every_bind; [now apply every_emit|]. intros _ _.
  destruct (node w path); constructor.
Qed.

Lemma quiet_sniff (path : string) (file_size : Z) (f : handle) :
  every quiet (sniff w path file_size f).
Proof.
  unfold sniff. destruct (f_read f 2) as [magic f1].
  apply every_bind; [now apply every_emit|]. intros _ _.
  apply every_bind; [now apply every_emit|]. intros _ _.
  destruct (classify magic file_size).
  - apply every_bind; [now apply every_emit|]. intros _ _.
    unfold call_imread. apply every_bind; [now apply every_emit|].
    intros _ _. destruct (imread w path); constructor.
  - apply every_bind; [now apply every_emit|]. intros _ _.
    destruct (f_read_all (f_seek f1 0)) as [raw_data f2].
    apply every_bind; [now apply every_emit|]. intros _ _.
    unfold frombuffer_reshape. destruct (reshape _ _); constructor.
  - apply every_bind; [now apply every_emit|]. intros _ _.
    apply every_return.
Qed.

Lemma quiet_with_open (path : string) (file_size : Z) :
  every quiet (with_open w path (sniff w path file_size)).
Proof.
  unfold with_open. apply every_bind; [now apply every_emit|]. intros _ _.
  destruct (node w path); try constructor.
  apply every_finally; [apply quiet_sniff | reflexivity].
Qed.

Lemma every_plt (P : event ndarray -> Prop) (call : event ndarray) :
  P call -> every P (plt w call).
Proof.
  intros H. unfold plt. apply every_bind; [now apply every_emit|].
  intros _ _. destruct (plt_raises w call); constructor.
Qed.

Lemma visualize_display_ok (name : string) (px : image ndarray) :
  selects w name -> decodes w name px ->
  every (display_ok w) (visualize w px name).
Proof.
  intros S D. unfold visualize.
  repeat (apply every_bind; [apply every_plt; simpl; eauto 6|intros _ _]).
  now apply every_plt.
Qed.

Lemma visualize_unhindered (name : string) (px : image ndarray) :
  (forall call, plt_raises w call = None) ->
  visualize w px name
  = ([plt_figure (10, 6); plt_imshow px "gray" 0 255;
      plt_title ("Viewing: " ++ name)%string;
      plt_colorbar "Pixel Intensity (0-255)"; plt_axis "off"; plt_show],
     Value tt).
Proof. intros H. unfold visualize, plt. rewrite !H. reflexivity. Qed.

Lemma value_inv {X} (t : list (event ndarray)) (r : result X) (x : X) :
  snd (t, r) = Value x -> r = Value x.
Proof. auto. Qed.

Lemma view_selected_display_ok :
  every (display_ok w) (view_selected w (candidates w)).
Proof.
  unfold view_selected.
  apply every_bind.
  { unfold input_line. apply every_bind; [now apply every_emit|].
    intros _ _. destruct (stdin w); constructor. }
  intros selection Hs.
  assert (I : stdin w = Some selection).
  { unfold input_line in Hs. rewrite bind_emit in Hs.
    destruct (stdin w); [|discriminate]. simpl in Hs. congruence. }
  apply every_bind; [apply every_when, every_return|]. intros u Hq.
  assert (Q : PyStr.lower selection <> "q"%string).
  { intros E. rewrite E in Hq. discriminate. }
  apply every_bind; [unfold int; destruct (PyStr.int _); constructor|].
  intros i Hi.
  assert (PI : PyStr.int selection = Some i).
  { unfold int in Hi. destruct (PyStr.int selection); [|discriminate].
    simpl in Hi. congruence. }
  apply every_bind;
    [unfold getitem; destruct (PyList.getitem _ _); constructor|].
  intros name Hg.
  assert (G : PyList.getitem (candidates w) (i - 1) = Some name).
  { unfold getitem in Hg. destruct (PyList.getitem _ _); [|discriminate].
    simpl in Hg. congruence. }
  assert (S : selects w name) by (exists selection, i; auto).
  apply every_bind;
    [apply (every_impl quiet), quiet_getsize; apply quiet_display_ok|].
  intros file_size Hz.
  apply every_bind;
    [apply (every_impl quiet), quiet_with_open; apply quiet_display_ok|].
  intros px Hp. apply visualize_display_ok; [exact S|].
  exists file_size. split; assumption.
Qed.

(** C9.  In every run, whatever the display collaborator is called with is
    fixed by the script: [imshow] gets the decoded image with the colour map
    [gray] and the range 0 to 255, [title] gets the name of the selected
    file after [Viewing: ], [colorbar] gets the label
    [Pixel Intensity (0-255)] and [axis] gets [off].  When an image is
    decoded, on either arm, and no display call raises, the run ends with
    exactly these six calls on that image, and they are the only display
    calls of the run. *)
Theorem display_range_is_fixed :
  every (display_ok w) (display_pgm w)
  /\ (forall name px,
        selects w name -> decodes w name px ->
        (forall call, plt_raises w call = None) ->
        exists t,
          Forall (fun ev => is_display ev = false) t /\
          display_pgm w
          = (t ++ [plt_figure (10, 6); plt_imshow px "gray" 0 255;
                   plt_title ("Viewing: " ++ name)%string;
                   plt_colorbar "Pixel Intensity (0-255)";
                   plt_axis "off"; plt_show], Value tt))
  /\ (forall name content a,
        node w (path_of name) = Regular content ->
        firstn 2 content = b_P5 \/ firstn 2 content = b_P2 ->
        imread w (path_of name) = inr a ->
        decodes w name (decoded a))
  /\ (forall name content,
        node w (path_of name) = Regular content ->
        firstn 2 content <> b_P5 -> firstn 2 content <> b_P2 ->
        Z.of_nat (List.length content) = 76800 ->
        decodes w name (uint8_2d (rows_of 240 320 content))).
Proof.
  split; [|split; [|split]].
  - destruct (folder w) as [| |names] eqn:F.
    + rewrite (display_pgm_absent w F). repeat constructor.
    + rewrite (display_pgm_not_listable w F). constructor.
    + destruct (discover names) as [|f files] eqn:D.
      * rewrite (display_pgm_no_candidates w names F D). repeat constructor.
      * assert (C : candidates w = discover names)
          by (unfold candidates; now rewrite F).
        rewrite (display_pgm_listed w names F) by (rewrite D; discriminate).
        rewrite <- C. apply every_after.
        -- eapply Forall_impl; [|apply listing_quiet].
           intros ev [_ H]. now apply quiet_display_ok.
        -- apply every_try_except; [apply view_selected_display_ok|].
           intros e _. now apply every_emit.
  - intros name px S (file_size & Hz & Hp) NR.
    rewrite (selected_rest w name S).
    pose proof (quiet_getsize (path_of name)) as Q1.
    pose proof (quiet_with_open (path_of name) file_size) as Q2.
    destruct (getsize w (path_of name)) as [t1 r1]. simpl in Hz. subst r1.
    rewrite bind_value.
    destruct (with_open w (path_of name) (sniff w (path_of name) file_size))
      as [t2 r2]. simpl in Hp. subst r2.
    rewrite bind_value, (visualize_unhindered name px NR).
    exists ((listing (candidates w) ++ [input prompt]) ++ t1 ++ t2). split.
    + apply Forall_app. split; [apply Forall_app; split|].
      * eapply Forall_impl; [|apply listing_quiet]. now intros ev [_ H].
      * repeat constructor.
      * apply Forall_app. split; [exact Q1 | exact Q2].
    + rewrite !after_pair. cbn [try_except]. rewrite after_pair.
      now rewrite <- !app_assoc.
  - intros name content a N Hm Hi.
    exists (Z.of_nat (List.length content)). unfold getsize, with_open.
    rewrite N. split; [reflexivity|].
    rewrite bind_emit. fold (opened content). rewrite sniff_opened.
    rewrite classify_standard by exact Hm. unfold arm, call_imread.
    rewrite Hi. reflexivity.
  - intros name content N H5 H2 L.
    exists (Z.of_nat (List.length content)). unfold getsize, with_open.
    rewrite N. split; [reflexivity|].
    rewrite bind_emit. fold (opened content). rewrite sniff_opened.
    rewrite classify_raw by assumption. unfold arm, frombuffer_reshape.
    rewrite (reshape_raw_dump _ L). reflexivity.
Qed.

End Display.

Lemma display_range_is_fixed_witness :
  every (display_ok scenario_B) (display_pgm scenario_B)
  /\ (exists t,
        Forall (fun ev => is_display ev = false) t /\
        display_pgm scenario_B
        = (t ++ [plt_figure (10, 6);
                 plt_imshow (uint8_2d (rows_of 240 320 grey_dump)) "gray" 0 255;
                 plt_title ("Viewing: " ++ "dump.pgm")%string;
                 plt_colorbar "Pixel Intensity (0-255)";
                 plt_axis "off"; plt_show], Value tt))
  /\ decodes headed_dump "big.pgm" (decoded tt)
  /\ decodes scenario_B "dump.pgm" (uint8_2d (rows_of 240 320 grey_dump)).
Proof.
  assert (D : decodes scenario_B "dump.pgm"
                (uint8_2d (rows_of 240 320 grey_dump))).
  { apply (proj2 (proj2 (proj2 (display_range_is_fixed scenario_B)))
             "dump.pgm"%string grey_dump).
    - reflexivity.
    - vm_compute. discriminate.
    - vm_compute. discriminate.
    - vm_compute. reflexivity. }
  split; [apply (proj1 (display_range_is_fixed scenario_B))|].
  split; [|split; [|exact D]].
  - apply (proj1 (proj2 (display_range_is_fixed scenario_B))
             "dump.pgm"%string (uint8_2d (rows_of 240 320 grey_dump))).
    + exists "1"%string, 1. repeat split; try reflexivity.
      vm_compute. discriminate.
    + exact D.
    + intros call. reflexivity.
  - apply (proj1 (proj2 (proj2 (display_range_is_fixed headed_dump)))
             "big.pgm"%string p5_sized_like_dump tt).
    + reflexivity.
    + left. reflexivity.
    + reflexivity.
Defined.

(** ** The Python primitives on small inputs *)

Example int_spaces_sign_underscore : PyStr.int " +1_0 " = Some 10.
Proof. reflexivity. Qed.

Example int_negative : PyStr.int "-3" = Some (-3).
Proof. reflexivity. Qed.

Example int_double_underscore : PyStr.int "1__0" = None.
Proof. reflexivity. Qed.

Example int_leading_underscore : PyStr.int "_1" = None.
Proof. reflexivity. Qed.

Example int_empty : PyStr.int "" = None.
Proof. reflexivity. Qed.

Example int_sign_then_space : PyStr.int "- 1" = None.
Proof. reflexivity. Qed.

Example int_trailing_underscore : PyStr.int "1_" = None.
Proof. reflexivity. Qed.

Example int_leading_zeros : PyStr.int "007" = Some 7.
Proof. reflexivity. Qed.

Example int_trailing_letter : PyStr.int "2x" = None.
Proof. reflexivity. Qed.

Example int_digit_limit :
  PyStr.int (ones 4301) = None /\ PyStr.int (ones 4300) <> None.
Proof. split; vm_compute; [reflexivity | discriminate]. Qed.

Example str_76800 : PyStr.str 76800 = "76800".
Proof. reflexivity. Qed.

Example str_zero : PyStr.str 0 = "0".
Proof. reflexivity. Qed.

Example is_pgm_mixed_case : is_pgm "A.PgM" = true.
Proof. reflexivity. Qed.

Example is_pgm_needs_the_dot : is_pgm "pgm" = false.
Proof. reflexivity. Qed.

Example is_pgm_bare_extension : is_pgm ".pgm" = true.
Proof. reflexivity. Qed.

Example sorted_by_code_point :
  sorted ["b.pgm"; "a.pgm"; "B.pgm"; "a10.pgm"; "a2.pgm"]%string
  = ["B.pgm"; "a.pgm"; "a10.pgm"; "a2.pgm"; "b.pgm"]%string.
Proof. reflexivity. Qed.

Example getitem_minus_one : PyList.getitem [1;2;3] (-1) = Some 3.
Proof. reflexivity. Qed.


(** * Further properties of [display_pgm] *)

Section Selected.

Context {ndarray : Type}.
Variable w : world ndarray.

Lemma display_pgm_candidates :
  candidates w <> [] ->
  display_pgm w
  = after (listing (candidates w))
          (try_except (view_selected w (candidates w)) report).
Proof.
  unfold candidates. destruct (folder w) as [| |names] eqn:F; try congruence.
  intros NE. exact (display_pgm_listed w names F NE).
Qed.

Lemma selects_In (name : string) : selects w name -> In name (candidates w).
Proof.
  intros (selection & i & _ & _ & _ & G). unfold PyList.getitem in G.
  destruct (_ || _); [discriminate|]. eapply nth_error_In, G.
Qed.

Lemma try_except_raises (t : list (event ndarray)) (e : exn) :
  try_except (t, Raises e) report = (t ++ [print_script_error e], Value tt).
Proof. reflexivity. Qed.

Lemma getsize_no_entry (path : string) :
  node w path = NoEntry ->
  getsize w path = ([os_path_getsize path], Raises (OSError path)).
Proof. intros N. unfold getsize. now rewrite N. Qed.

Lemma getsize_directory (path : string) (st_size : Z) :
  node w path = Directory st_size ->
  getsize w path = ([os_path_getsize path], Value st_size).
Proof. intros N. unfold getsize. now rewrite N. Qed.

Lemma with_open_not_regular {X} (path : string) (body : handle -> M ndarray X) :
  (forall content, node w path <> Regular content) ->
  with_open w path body = ([open_rb path], Raises (OSError path)).
Proof.
  intros N. unfold with_open.
  destruct (node w path) as [| |content]; try reflexivity.
  now destruct (N content).
Qed.

(** X1.  A line that [int] reads as a number above the length of the
    listing, or at most minus that length, indexes no candidate: the
    [IndexError] is reported right after the prompt and the run ends, no
    file touched. *)
Theorem out_of_range_is_reported (selection : string) (k : Z) :
  candidates w <> [] ->
  stdin w = Some selection ->
  PyStr.int selection = Some k ->
  Z.of_nat (List.length (candidates w)) < k \/
  k <= - Z.of_nat (List.length (candidates w)) ->
  display_pgm w
  = (listing (candidates w) ++ [input prompt; print_script_error IndexError],
     Value tt).
Proof.
  intros NE I P R. rewrite (display_pgm_candidates NE).
  rewrite (view_selected_no_such_index w _ selection k I
             (int_is_not_quit _ _ P) P); [reflexivity|].
  apply getitem_out_of_range. lia.
Qed.

(** X2.  At the end of input the prompt raises [EOFError]; the handler
    reports it and the run ends, no file touched. *)
Theorem end_of_input_is_reported :
  candidates w <> [] ->
  stdin w = None ->
  display_pgm w
  = (listing (candidates w) ++ [input prompt; print_script_error EOFError],
     Value tt).
Proof.
  intros NE I. rewrite (display_pgm_candidates NE).
  now rewrite (view_selected_eof w _ I).
Qed.

(** X3.  A line that reads as [0] or as a negative number above minus the
    length of the listing is not refused: with [N] candidates and the number
    [k], lines 27-58 run on candidate [N + k - 1], counted from 0, so [0]
    views the last file and [-1] the one before it. *)
Theorem nonpositive_number_counts_from_the_end (selection : string) (k : Z) :
  stdin w = Some selection ->
  PyStr.int selection = Some k ->
  - Z.of_nat (List.length (candidates w)) < k <= 0 ->
  exists name,
    nth_error (candidates w)
              (Z.to_nat (k - 1 + Z.of_nat (List.length (candidates w))))
    = Some name
    /\ display_pgm w
       = after (listing (candidates w) ++ [input prompt])
           (try_except
              (bind (getsize w (path_of name)) (fun file_size =>
               bind (with_open w (path_of name)
                       (sniff w (path_of name) file_size))
                    (fun pixels => visualize w pixels name)))
              report).
Proof.
  intros I P R.
  destruct (selection_wraps_around w selection k I P R) as (name & E & S).
  exists name. split; [exact E|]. now apply selected_rest.
Qed.

(** X4.  A candidate that is gone when it is selected is never opened:
    [os.path.getsize] raises, the handler reports the error and the run
    ends. *)
Theorem vanished_entry_is_reported (name : string) :
  selects w name ->
  node w (path_of name) = NoEntry ->
  display_pgm w
  = (listing (candidates w)
       ++ [input prompt; os_path_getsize (path_of name);
           print_script_error (OSError (path_of name))], Value tt).
Proof.
  intros S N. rewrite (selected_rest w name S).
  rewrite (getsize_no_entry _ N), bind_raises, try_except_raises.
  rewrite after_pair, <- app_assoc. reflexivity.
Qed.

(** X5.  The listing does not tell files from directories: a directory
    whose name ends in [.pgm] is a candidate.  Selecting it gets its size,
    fails in [open], and the error is reported without a read, a decode or
    a display call. *)
Theorem directory_entry_is_reported (names : list string) (name : string)
    (st_size : Z) :
  folder w = Listing names ->
  In name names -> is_pgm name = true ->
  selects w name ->
  node w (path_of name) = Directory st_size ->
  In name (candidates w)
  /\ display_pgm w
     = (listing (candidates w)
          ++ [input prompt; os_path_getsize (path_of name);
              open_rb (path_of name);
              print_script_error (OSError (path_of name))], Value tt).
Proof.
  intros F Hin Hp S N. split.
  - unfold candidates. rewrite F. apply discover_In. auto.
  - rewrite (selected_rest w name S).
    rewrite (getsize_directory _ _ N), bind_value.
    rewrite with_open_not_regular, bind_raises
      by (intros content; rewrite N; discriminate).
    rewrite after_pair, try_except_raises, after_pair, <- app_assoc.
    reflexivity.
Qed.

(** X6.  A file of fewer than two bytes, the empty file among them, has no
    magic number and not the size of a dump: it is reported as of unknown
    format with its size, closed, and not displayed. *)
Theorem short_file_is_unknown (name : string) (content : list byte) :
  selects w name ->
  node w (path_of name) = Regular content ->
  (List.length content < 2)%nat ->
  display_pgm w
  = (listing (candidates w)
       ++ [input prompt; os_path_getsize (path_of name);
           open_rb (path_of name);
           read (Some 2%nat) content; seek 0%nat;
           print ("Unknown format. Size is "
                    ++ PyStr.str (Z.of_nat (List.length content))
                    ++ " bytes (not 76800).")%string;
           close], Returns).
Proof.
  intros S N L.
  assert (F2 : firstn 2 content = content) by (apply firstn_all2; lia).
  rewrite (selected_run w name content S N), F2.
  rewrite classify_unknown.
  - rewrite unknown_arm, after_pair, <- app_assoc. reflexivity.
  - intros E. rewrite E in L. simpl in L. lia.
  - intros E. rewrite E in L. simpl in L. lia.
  - lia.
Qed.

(** X7.  The body of the [with] block raises only when the decoder does:
    on the Headerless Raw arm the size test of line 42 has made sure that
    the reshape to 240 by 320 succeeds, and the Unknown arm returns. *)
Theorem sniff_raises_only_from_the_decoder (path : string)
    (content : list byte) (e : exn) :
  snd (sniff w path (Z.of_nat (List.length content)) (opened content))
  = Raises e ->
  classify (firstn 2 content) (Z.of_nat (List.length content)) = StandardHeader
  /\ imread w path = inl e.
Proof.
  rewrite sniff_opened. unfold classify, arm.
  destruct (bytes_in (firstn 2 content) [b_P5; b_P2]).
  - unfold call_imread. rewrite bind_emit.
    destruct (imread w path) as [e'|a]; unfold after, raise, ret;
      cbn [snd]; intros H; [|discriminate].
    split; congruence.
  - destruct (Z.eqb_spec (Z.of_nat (List.length content)) 76800) as [L|L].
    + unfold frombuffer_reshape. rewrite (reshape_raw_dump _ L).
      unfold after, ret. cbn [snd]. discriminate.
    + unfold after. cbn [snd]. discriminate.
Qed.

End Selected.

(** ** Invariants of the events of a run *)

Section Invariants.

Context {ndarray : Type}.
Variable w : world ndarray.
Variable P : event ndarray -> Prop.

Hypothesis P_print : forall line, P (print line).
Hypothesis P_read : forall n got, P (read n got).
Hypothesis P_seek : forall offset, P (seek offset).
Hypothesis P_close : P close.

Lemma every_getsize (path : string) :
  P (os_path_getsize path) -> every P (getsize w path).
Proof.
  intros H. unfold getsize. apply every_bind; [now apply every_emit|].
  intros _ _. destruct (node w path); constructor.
Qed.

Lemma every_sniff (path : string) (file_size : Z) (f : handle) :
  P (plt_imread path) -> every P (sniff w path file_size f).
Proof.
  intros H. unfold sniff. destruct (f_read f 2) as [magic f1].
  apply every_bind; [now apply every_emit|]. intros _ _.
  apply every_bind; [now apply every_emit|]. intros _ _.
  destruct (classify magic file_size).
  - apply every_bind; [now apply every_emit|]. intros _ _.
    unfold call_imread. apply every_bind; [now apply every_emit|].
    intros _ _. destruct (imread w path); constructor.
  - apply every_bind; [now apply every_emit|]. intros _ _.
    destruct (f_read_all (f_seek f1 0)) as [raw_data f2].
    apply every_bind; [now apply every_emit|]. intros _ _.
    unfold frombuffer_reshape. destruct (reshape _ _); constructor.
  - apply every_bind; [now apply every_emit|]. intros _ _.
    apply every_return.
Qed.

Lemma every_with_open_sniff (path : string) (file_size : Z) :
  P (open_rb path) -> P (plt_imread path) ->
  every P (with_open w path (sniff w path file_size)).
Proof.
  intros Ho Hi. unfold with_open.
  apply every_bind; [now apply every_emit|]. intros _ _.
  destruct (node w path); try constructor.
  apply every_finally; [now apply every_sniff | exact P_close].
Qed.

Lemma every_visualize (px : image ndarray) (name : string) :
  (forall call, is_display call = true -> P call) ->
  every P (visualize w px name).
Proof.
  intros H. unfold visualize.
  repeat (apply every_bind; [apply every_plt; now apply H|intros _ _]).
  apply every_plt. now apply H.
Qed.

(** What holds of the events of lines 23-58, given that it holds of the
    prompt, of the three calls on the path of the selected entry and of the
    display calls. *)
Lemma every_view_selected :
  P (input prompt) ->
  (forall name, selects w name ->
     P (os_path_getsize (path_of name)) /\ P (open_rb (path_of name)) /\
     P (plt_imread (path_of name))) ->
  (forall call, is_display call = true -> P call) ->
  every P (view_selected w (candidates w)).
Proof.
  intros Hin Hsel Hdisp. unfold view_selected.
  apply every_bind.
  { unfold input_line. apply every_bind; [now apply every_emit|].
    intros _ _. destruct (stdin w); constructor. }
  intros selection Hs.
  assert (I : stdin w = Some selection).
  { unfold input_line in Hs. rewrite bind_emit in Hs.
    destruct (stdin w); [|discriminate]. simpl in Hs. congruence. }
  apply every_bind; [apply every_when, every_return|]. intros u Hq.
  assert (Q : PyStr.lower selection <> "q"%string).
  { intros E. rewrite E in Hq. discriminate. }
  apply every_bind; [unfold int; destruct (PyStr.int _); constructor|].
  intros i Hi.
  assert (PI : PyStr.int selection = Some i).
  { unfold int in Hi. destruct (PyStr.int selection); [|discriminate].
    simpl in Hi. congruence. }
  apply every_bind;
    [unfold getitem; destruct (PyList.getitem _ _); constructor|].
  intros name Hg.
  assert (G : PyList.getitem (candidates w) (i - 1) = Some name).
  { unfold getitem in Hg. destruct (PyList.getitem _ _); [|discriminate].
    simpl in Hg. congruence. }
  assert (S : selects w name) by (exists selection, i; auto).
  destruct (Hsel name S) as (Hg1 & Hg2 & Hg3).
  apply every_bind; [now apply every_getsize|]. intros file_size _.
  apply every_bind; [now apply every_with_open_sniff|]. intros px _.
  now apply every_visualize.
Qed.

(** The same of a whole run, given that it also holds of the line the
    handler prints. *)
Lemma every_display_pgm :
  P (input prompt) ->
  (forall name, selects w name ->
     P (os_path_getsize (path_of name)) /\ P (open_rb (path_of name)) /\
     P (plt_imread (path_of name))) ->
  (forall call, is_display call = true -> P call) ->
  (forall e, P (print_script_error e)) ->
  every P (display_pgm w).
Proof.
  intros Hin Hsel Hdisp Herr.
  destruct (folder w) as [| |names] eqn:F.
  - rewrite (display_pgm_absent w F). repeat constructor. apply P_print.
  - rewrite (display_pgm_not_listable w F). constructor.
  - destruct (discover names) as [|f files] eqn:D.
    + rewrite (display_pgm_no_candidates w names F D).
      repeat constructor. apply P_print.
    + assert (C : candidates w = discover names)
        by (unfold candidates; now rewrite F).
      rewrite (display_pgm_listed w names F) by (rewrite D; discriminate).
      rewrite <- C. apply every_after.
      * unfold listing. apply Forall_map, Forall_forall.
        intros [i g] _. apply P_print.
      * apply every_try_except; [now apply every_view_selected|].
        intros e _. apply every_emit, Herr.
Qed.

End Invariants.

Section Counting.

Context {ndarray : Type}.
Variable p : event ndarray -> bool.

Lemma fst_bind {X Y} (m : M ndarray X) (k : X -> M ndarray Y) :
  fst (bind m k)
  = fst m ++ match snd m with Value x => fst (k x) | _ => [] end.
Proof.
  destruct m as [t [x| |e]]; simpl; rewrite ?app_nil_r; try reflexivity.
  now destruct (k x).
Qed.

Lemma count_bind {X Y} (m : M ndarray X) (k : X -> M ndarray Y) (a b : nat) :
  (List.length (filter p (fst m)) <= a)%nat ->
  (forall x, List.length (filter p (fst (k x))) <= b)%nat ->
  (List.length (filter p (fst (bind m k))) <= a + b)%nat.
Proof.
  intros Hm Hk. rewrite fst_bind, filter_app, length_app.
  destruct (snd m) as [x| |e]; simpl; try lia. specialize (Hk x). lia.
Qed.

Lemma count_none {X} (m : M ndarray X) :
  every (fun ev => p ev = false) m ->
  (List.length (filter p (fst m)) <= 0)%nat.
Proof.
  unfold every. induction 1 as [|ev t H _ IH]; simpl; [lia|].
  now rewrite H.
Qed.

Lemma count_bind_none {X Y} (m : M ndarray X) (k : X -> M ndarray Y)
    (b : nat) :
  every (fun ev => p ev = false) m ->
  (forall x, List.length (filter p (fst (k x))) <= b)%nat ->
  (List.length (filter p (fst (bind m k))) <= b)%nat.
Proof.
  intros Hm Hk. apply (count_bind m k 0 b); [now apply count_none|exact Hk].
Qed.

Lemma count_try_except (body : M ndarray unit) h (a b : nat) :
  (List.length (filter p (fst body)) <= a)%nat ->
  (forall e, List.length (filter p (fst (h e))) <= b)%nat ->
  (List.length (filter p (fst (try_except body h))) <= a + b)%nat.
Proof.
  intros Hm Hh. destruct body as [t [x| |e]]; simpl in *; try lia.
  specialize (Hh e). destruct (h e). simpl in *.
  rewrite filter_app, length_app. lia.
Qed.

End Counting.

Lemma no_error_before (A : Type) (Q : A -> Prop) (l : list A) :
  forall (x y : A) (t1 t2 : list A),
  Forall Q l -> ~ Q y -> l ++ [x] = t1 ++ y :: t2 ->
  t1 = l /\ x = y /\ t2 = [].
Proof.
  induction l as [|a l IH]; intros x y t1 t2 HQ Hy E.
  - destruct t1 as [|b t1]; simpl in E.
    + injection E as -> <-. auto.
    + injection E as _ E. destruct t1; discriminate.
  - apply Forall_cons_iff in HQ as [Ha HQ].
    destruct t1 as [|b t1]; simpl in E; injection E as -> E.
    + contradiction.
    + destruct (IH x y t1 t2 HQ Hy E) as (-> & -> & ->). auto.
Qed.

Lemma not_among (A : Type) (Q : A -> Prop) (l t1 t2 : list A) (y : A) :
  Forall Q l -> ~ Q y -> l <> t1 ++ y :: t2.
Proof.
  intros HQ Hy ->. apply Forall_app in HQ as [_ HQ].
  apply Forall_cons_iff in HQ as [HQ _]. contradiction.
Qed.

Section Order.

Context {ndarray : Type}.
Variable w : world ndarray.

(** X8.  Every path the run hands to [os.path.getsize], to [open] or to
    [plt.imread] is ['pgm_files/'] followed by the selected name, which is
    an entry of the folder that passes the [.pgm] test: the script touches
    no other file. *)
Theorem only_the_selected_entry_is_touched :
  every (confined w) (display_pgm w).
Proof.
  apply every_display_pgm; try exact I; try (intros; exact I).
  - intros name S.
    destruct (selects_listed w name S) as (names & F & C & _).
    pose proof (selects_In w name S) as Hin. rewrite C in Hin.
    apply discover_In in Hin as [Hin Hp].
    repeat split; exists names, name; repeat split; assumption.
  - intros call H. destruct call; try discriminate H; exact I.
Qed.

(** X9.  The handler's line is the last thing a run does: when
    [Script Error: e] is printed, [e] is the exception the body of the [try]
    raised, nothing follows the line, and [display_pgm] returns. *)
Theorem error_report_is_last (t1 t2 : list (event ndarray)) (e : exn) :
  fst (display_pgm w) = t1 ++ print_script_error e :: t2 ->
  t2 = []
  /\ snd (display_pgm w) = Value tt
  /\ snd (view_selected w (candidates w)) = Raises e.
Proof.
  set (Q := fun ev : event ndarray => is_script_error ev = false).
  assert (Hy : ~ Q (print_script_error e)) by (unfold Q; discriminate).
  assert (HL : forall files, Forall Q (listing (ndarray := ndarray) files)).
  { intros files. unfold listing. apply Forall_map, Forall_forall.
    now intros [i f] _. }
  destruct (folder w) as [| |names] eqn:F.
  - rewrite (display_pgm_absent w F). cbn [fst]. intros E.
    exfalso. revert E. apply not_among with Q; [|exact Hy].
    repeat constructor.
  - rewrite (display_pgm_not_listable w F). cbn [fst]. intros E.
    exfalso. revert E. apply not_among with Q; [|exact Hy]. constructor.
  - destruct (discover names) as [|f files] eqn:D.
    + rewrite (display_pgm_no_candidates w names F D). cbn [fst]. intros E.
      exfalso. revert E. apply not_among with Q; [|exact Hy].
      repeat constructor.
    + assert (C : candidates w = discover names)
        by (unfold candidates; now rewrite F).
      rewrite (display_pgm_listed w names F) by (rewrite D; discriminate).
      rewrite <- C.
      assert (V : every Q (view_selected w (candidates w))).
      { apply every_view_selected; try reflexivity;
          try (intros; reflexivity).
        - intros name _. repeat split.
        - intros call H. destruct call; try discriminate H; reflexivity. }
      unfold every in V.
      destruct (view_selected w (candidates w)) as [t [[]| |e']];
        cbn [fst snd after try_except report emit] in *.
      * intros E. exfalso. revert E.
        apply not_among with Q; [|exact Hy]. apply Forall_app. auto.
      * intros E. exfalso. revert E.
        apply not_among with Q; [|exact Hy]. apply Forall_app. auto.
      * rewrite app_assoc. intros E.
        apply (no_error_before _ Q) in E as (_ & E & ->);
          [|apply Forall_app; auto|exact Hy].
        injection E as ->. auto.
Qed.

(** X10.  A run is single-shot: it prompts at most once and it opens at
    most one file. *)
Theorem one_prompt_one_file :
  (List.length (filter is_input (fst (display_pgm w))) <= 1)%nat
  /\ (List.length (filter is_open (fst (display_pgm w))) <= 1)%nat.
Proof.
  assert (HL : forall (p : event ndarray -> bool) files,
             (forall line, p (print line) = false) ->
             filter p (listing files) = []).
  { intros p files Hp. unfold listing.
    induction (PyList.enumerate files 1) as [|[i f] l IH]; simpl; auto.
    now rewrite Hp. }
  assert (HD : forall p : event ndarray -> bool,
             (forall line, p (print line) = false) ->
             (forall e, p (print_script_error e) = false) ->
             (List.length (filter p (fst (view_selected w (candidates w))))
              <= 1)%nat ->
             (List.length (filter p (fst (display_pgm w))) <= 1)%nat).
  { intros p Hp He Hv. destruct (folder w) as [| |names] eqn:F.
    - rewrite (display_pgm_absent w F). simpl. rewrite Hp. simpl. lia.
    - rewrite (display_pgm_not_listable w F). simpl. lia.
    - destruct (discover names) as [|f files] eqn:D.
      + rewrite (display_pgm_no_candidates w names F D). simpl.
        rewrite Hp. simpl. lia.
      + assert (C : candidates w = discover names)
          by (unfold candidates; now rewrite F).
        rewrite (display_pgm_listed w names F) by (rewrite D; discriminate).
        rewrite <- C. unfold after. cbn [fst].
        rewrite filter_app, (HL p _ Hp). cbn [app].
        apply (count_try_except p _ _ 1 0); [exact Hv|].
        intros e. simpl. rewrite He. simpl. lia. }
  split; apply HD; try reflexivity; unfold view_selected.
  - apply (count_bind is_input _ _ 1 0).
    + unfold input_line. rewrite bind_emit.
      destruct (stdin w); simpl; lia.
    + intros selection. apply count_none.
      apply every_bind; [apply every_when, every_return|]. intros _ _.
      apply every_bind; [unfold int; destruct (PyStr.int _); constructor|].
      intros i _.
      apply every_bind;
        [unfold getitem; destruct (PyList.getitem _ _); constructor|].
      intros name _.
      apply every_bind; [apply every_getsize; reflexivity|]. intros sz _.
      apply every_bind;
        [apply every_with_open_sniff; reflexivity|]. intros px _.
      apply every_visualize; try reflexivity.
      intros call H. destruct call; try discriminate H; reflexivity.
  - apply count_bind_none.
    { unfold input_line. apply every_bind; [now apply every_emit|].
      intros _ _. destruct (stdin w); constructor. }
    intros selection.
    apply count_bind_none; [apply every_when, every_return|]. intros _.
    apply count_bind_none;
      [unfold int; destruct (PyStr.int _); constructor|]. intros i.
    apply count_bind_none;
      [unfold getitem; destruct (PyList.getitem _ _); constructor|].
    intros name.
    apply count_bind_none; [apply every_getsize; reflexivity|]. intros sz.
    apply (count_bind is_open _ _ 1 0).
    + unfold with_open. rewrite bind_emit. unfold after. cbn [fst app filter
        is_open List.length].
      apply le_n_S. destruct (node w (os_path_join folder_name name));
        try (simpl; lia).
      apply count_none, every_finally; [|reflexivity].
      apply every_sniff; reflexivity.
    + intros px. apply count_none, every_visualize; try reflexivity.
      intros call H. destruct call; try discriminate H; reflexivity.
Qed.

End Order.

Section Closing.

Context {ndarray : Type}.
Variable w : world ndarray.

(** X11.  A file that was opened is closed on every way out of the [with]
    block, and before anything is displayed: the trace of the run holds a
    [close] with no display call before it and no event after it that
    touches a file. *)
Theorem file_is_closed_before_display (name : string) (content : list byte) :
  selects w name ->
  node w (path_of name) = Regular content ->
  exists t1 t2,
    fst (display_pgm w) = t1 ++ close :: t2
    /\ Forall (fun ev => is_display ev = false) t1
    /\ Forall (fun ev => touches_file ev = false) t2.
Proof.
  intros S N. rewrite (selected_run w name content S N).
  pose proof (quiet_sniff w (path_of name) (Z.of_nat (List.length content))
                (opened content)) as QA.
  rewrite sniff_opened in QA. unfold every, after in QA. cbn [fst] in QA.
  apply Forall_app in QA as [_ QA].
  assert (QP : Forall (fun ev : event ndarray => is_display ev = false)
                 (listing (candidates w)
                    ++ [input prompt; os_path_getsize (path_of name);
                        open_rb (path_of name);
                        read (Some 2%nat) (firstn 2 content); seek 0%nat])).
  { apply Forall_app. split; [|repeat constructor].
    eapply Forall_impl; [|apply listing_quiet]. now intros ev [_ H]. }
  assert (QV : forall px,
             Forall (fun ev : event ndarray => touches_file ev = false)
                    (fst (try_except (visualize w px name) report))).
  { intros px. apply every_try_except.
    - apply every_visualize.
      intros call H. destruct call; try discriminate H; reflexivity.
    - intros e _. now apply every_emit. }
  destruct (arm w (path_of name) (Z.of_nat (List.length content)) content _)
    as [ta [px| |e]]; unfold finally.
  - rewrite bind_value, try_except_after, after_after. unfold after.
    cbn [fst].
    exists ((listing (candidates w)
               ++ [input prompt; os_path_getsize (path_of name);
                   open_rb (path_of name);
                   read (Some 2%nat) (firstn 2 content); seek 0%nat]) ++ ta),
           (fst (try_except (visualize w px name) report)).
    split; [now rewrite <- !app_assoc|].
    split; [apply Forall_app; auto | apply QV].
  - unfold after. cbn [fst bind try_except].
    exists ((listing (candidates w)
               ++ [input prompt; os_path_getsize (path_of name);
                   open_rb (path_of name);
                   read (Some 2%nat) (firstn 2 content); seek 0%nat]) ++ ta),
           [].
    split; [now rewrite <- !app_assoc|].
    split; [apply Forall_app; auto | constructor].
  - unfold after. cbn [fst bind try_except report emit].
    exists ((listing (candidates w)
               ++ [input prompt; os_path_getsize (path_of name);
                   open_rb (path_of name);
                   read (Some 2%nat) (firstn 2 content); seek 0%nat]) ++ ta),
           [print_script_error e].
    split; [now rewrite <- !app_assoc|].
    split; [apply Forall_app; auto | repeat constructor].
Qed.

(** X12.  Typing the number a line of the listing shows views the file of
    that line: for the [i]-th candidate, counted from 0, the listing prints
    [i + 1] before its name, and the numeral [str(i + 1)] at the prompt runs
    lines 27-58 on it.  (The numeral has to stay within the digit limit of
    [int].) *)
Theorem listed_number_views_listed_file (i : nat) (name : string) :
  nth_error (candidates w) i = Some name ->
  stdin w = Some (PyStr.str (Z.of_nat i + 1)) ->
  (String.length (PyStr.str (Z.of_nat i + 1)) <= PyStr.max_str_digits)%nat ->
  nth_error (listing (ndarray := ndarray) (candidates w)) i
  = Some (print (PyStr.str (Z.of_nat i + 1) ++ ". " ++ name)%string)
  /\ display_pgm w
     = after (listing (candidates w) ++ [input prompt])
         (try_except
            (bind (getsize w (path_of name)) (fun file_size =>
             bind (with_open w (path_of name)
                     (sniff w (path_of name) file_size))
                  (fun pixels => visualize w pixels name)))
            report).
Proof.
  intros E I L. split.
  - unfold listing. rewrite listing_nth, E. simpl. now rewrite Z.add_comm.
  - apply selected_rest.
    assert (P : PyStr.int (PyStr.str (Z.of_nat i + 1)) = Some (Z.of_nat i + 1)).
    { apply int_str. rewrite Z.abs_eq by lia. exact L. }
    exists (PyStr.str (Z.of_nat i + 1)), (Z.of_nat i + 1).
    repeat split; try assumption.
    + now apply int_is_not_quit with (Z.of_nat i + 1).
    + assert (Hlt : (i < List.length (candidates w))%nat)
        by (apply nth_error_Some; congruence).
      rewrite getitem_from_start by lia.
      replace (Z.to_nat (Z.of_nat i + 1 - 1)) with i by lia. exact E.
Qed.

End Closing.

(** ** The order of the listing *)

Lemma ascending_nth (l : list string) : forall i j a b,
  StronglySorted str_le l -> (i < j)%nat ->
  nth_error l i = Some a -> nth_error l j = Some b -> str_le a b.
Proof.
  induction l as [|x l IH]; intros i j a b S Hij Ha Hb.
  - destruct i; discriminate.
  - apply StronglySorted_inv in S as [S Hx].
    destruct j as [|j]; [lia|]. simpl in Hb.
    destruct i as [|i]; simpl in Ha.
    + injection Ha as ->. rewrite Forall_forall in Hx.
      eapply Hx, nth_error_In, Hb.
    + apply (IH i j); auto. lia.
Qed.

Lemma compare_first_difference (p : string) (c1 c2 : ascii) (r1 r2 : string) :
  Ascii.compare c1 c2 = Lt ->
  String.compare (p ++ String c1 r1) (p ++ String c2 r2) = Lt.
Proof.
  intros H. induction p as [|c p IH]; simpl.
  - now rewrite H.
  - now rewrite ascii_compare_refl.
Qed.

(** X13.  The listing is in code-point order, not in the order of the
    numbers inside the names: of two candidates that agree up to a character,
    the one with the smaller character there is listed first, so [x10.pgm]
    comes before [x2.pgm] and [B.pgm] before [a.pgm]. *)
Theorem listing_follows_code_points (names : list string) (p r1 r2 : string)
    (c1 c2 : ascii) (i j : nat) :
  nth_error (discover names) i = Some (p ++ String c1 r1)%string ->
  nth_error (discover names) j = Some (p ++ String c2 r2)%string ->
  (nat_of_ascii c1 < nat_of_ascii c2)%nat ->
  (i < j)%nat.
Proof.
  intros Hi Hj Hc.
  assert (Lt12 : String.compare (p ++ String c1 r1) (p ++ String c2 r2) = Lt).
  { apply compare_first_difference. unfold Ascii.compare.
    apply N.compare_lt_iff. unfold nat_of_ascii in Hc. lia. }
  destruct (Nat.lt_trichotomy i j) as [H|[H|H]]; [exact H| |].
  - subst j. rewrite Hi in Hj. injection Hj as E. rewrite E in Lt12.
    pose proof (String.compare_antisym (p ++ String c2 r2)
                  (p ++ String c2 r2)) as A.
    rewrite Lt12 in A. discriminate A.
  - pose proof (ascending_nth _ j i _ _ (sorted_StronglySorted _) H Hj Hi)
      as Hle.
    unfold str_le, String.leb in Hle.
    rewrite String.compare_antisym, Lt12 in Hle. discriminate.
Qed.

Lemma listing_follows_code_points_witness :
  discover ["x2.pgm"; "B.pgm"; "x10.pgm"]%string
  = ["B.pgm"; "x10.pgm"; "x2.pgm"]%string
  /\ (1 < 2)%nat.
Proof.
  split; [reflexivity|].
  apply (listing_follows_code_points
           ["x2.pgm"; "B.pgm"; "x10.pgm"]%string
           "x"%string "0.pgm"%string ".pgm"%string "1"%char "2"%char 1 2).
  - reflexivity.
  - reflexivity.
  - vm_compute. lia.
Defined.

(** ** What [int] accepts *)









Lemma skip_space_padding (pre s : string) :
  all_chars PyStr.Py_ISSPACE pre = true ->
  PyStr.skip_space (pre ++ s) = PyStr.skip_space s.
Proof.
  induction pre as [|c pre IH]; simpl; auto.
  intros H. apply andb_true_iff in H as [H1 H2]. rewrite H1. auto.
Qed.

Lemma skip_space_all (s : string) :
  all_chars PyStr.Py_ISSPACE s = true -> PyStr.skip_space s = EmptyString.
Proof.
  induction s as [|c s IH]; simpl; auto.
  intros H. apply andb_true_iff in H as [H1 H2]. rewrite H1. auto.
Qed.

Lemma space_stops_scan (c : ascii) :
  PyStr.Py_ISSPACE c = true ->
  PyStr.digit_value c = None /\ PyStr.is_underscore c = false.
Proof.
  destruct c as [[] [] [] [] [] [] [] []]; vm_compute;
    intros H; try discriminate H; auto.
Qed.

Lemma padding_stops_scan (post : string) (nd : nat) (acc : Z) :
  all_chars PyStr.Py_ISSPACE post = true ->
  PyStr.scan_digits post false nd acc = Some (acc, nd, post).
Proof.
  destruct post as [|c post]; simpl; auto.
  intros H. apply andb_true_iff in H as [H _].
  destruct (space_stops_scan c H) as [-> ->]. reflexivity.
Qed.

Lemma scan_digits_acc_padded (post : string) (d : Decimal.uint) :
  all_chars PyStr.Py_ISSPACE post = true ->
  forall nd p,
  PyStr.scan_digits (NilEmpty.string_of_uint d ++ post) false nd (Zpos p)
  = Some (Zpos (Pos.of_uint_acc d p), (nd + Decimal.nb_digits d)%nat, post).
Proof.
  intros Hp.
  induction d; intros nd p;
    cbn [NilEmpty.string_of_uint PyStr.scan_digits Pos.of_uint_acc
         Decimal.nb_digits String.append];
    try (eval_digit; rewrite Nat.add_succ_r, <- Nat.add_succ_l, <- IHd;
         f_equal; lia).
  rewrite Nat.add_0_r. now apply padding_stops_scan.
Qed.

Lemma scan_digits_uint_padded (post : string) (d : Decimal.uint) :
  all_chars PyStr.Py_ISSPACE post = true ->
  forall nd,
  PyStr.scan_digits (NilEmpty.string_of_uint d ++ post) false nd 0
  = Some (Z.of_N (Pos.of_uint d), (nd + Decimal.nb_digits d)%nat, post).
Proof.
  intros Hp.
  induction d; intros nd;
    cbn [NilEmpty.string_of_uint PyStr.scan_digits Pos.of_uint
         Decimal.nb_digits String.append];
    try (eval_digit; cbn [Z.of_N];
         rewrite Nat.add_succ_r, <- Nat.add_succ_l;
         first [ rewrite <- IHd; reflexivity
               | rewrite <- (scan_digits_acc_padded post d Hp);
                 reflexivity ]).
  rewrite Nat.add_0_r. now apply padding_stops_scan.
Qed.

Lemma int_padded_numeral (pre post : string) (q : positive) :
  all_chars PyStr.Py_ISSPACE pre = true ->
  all_chars PyStr.Py_ISSPACE post = true ->
  (String.length (PyStr.str (Zpos q)) <= PyStr.max_str_digits)%nat ->
  PyStr.int (pre ++ PyStr.str (Zpos q) ++ post) = Some (Zpos q).
Proof.
  intros Hpre Hpost L. unfold PyStr.str in *.
  cbn [Z.to_int NilZero.string_of_int] in *.
  pose proof (DecimalPos.Unsigned.to_uint_nonnil q) as NN.
  pose proof (DecimalPos.Unsigned.of_to q) as OT.
  assert (E : NilZero.string_of_uint (Pos.to_uint q)
              = NilEmpty.string_of_uint (Pos.to_uint q))
    by (destruct (Pos.to_uint q); try congruence; reflexivity).
  rewrite E in *. rewrite length_string_of_uint in L.
  set (d := Pos.to_uint q) in *.
  pose proof (scan_digits_uint_padded post d Hpost 0) as S.
  rewrite OT in S. cbn [Z.of_N Nat.add] in S.
  assert (Hpos : (0 < Decimal.nb_digits d)%nat)
    by (destruct d; try congruence; simpl; lia).
  assert (E0 : (Decimal.nb_digits d =? 0)%nat = false)
    by (apply Nat.eqb_neq; lia).
  assert (E1 : (PyStr.max_str_digits <? Decimal.nb_digits d)%nat = false)
    by (apply Nat.ltb_ge; lia).
  unfold PyStr.int. rewrite skip_space_padding by exact Hpre.
  assert (H1 : PyStr.split_sign
                 (PyStr.skip_space (NilEmpty.string_of_uint d ++ post))
               = (1, (NilEmpty.string_of_uint d ++ post)%string))
    by (destruct d; try congruence; reflexivity).
  rewrite H1.
  assert (H2 : forall X : option Z,
             match (NilEmpty.string_of_uint d ++ post)%string with
             | String "_"%char _ => None
             | _ => X
             end = X)
    by (intros X; destruct d; try congruence; reflexivity).
  rewrite H2, S, E0, E1, (skip_space_all post Hpost).
  reflexivity.
Qed.

Section Typing.

Context {ndarray : Type}.
Variable w : world ndarray.


(** X15.  White space around the number does not matter: the numeral of
    [k] between any runs of blanks, tabs and line breaks is read as [k],
    and for [1 <= k <= len(files)] the run goes on with the [k]-th
    candidate.  (The numeral has to stay within the digit limit of
    [int].) *)
Theorem padded_number_is_accepted (pre post : string) (k : Z) :
  all_chars PyStr.Py_ISSPACE pre = true ->
  all_chars PyStr.Py_ISSPACE post = true ->
  stdin w = Some (pre ++ PyStr.str k ++ post)%string ->
  1 <= k <= Z.of_nat (List.length (candidates w)) ->
  (String.length (PyStr.str k) <= PyStr.max_str_digits)%nat ->
  exists name,
    nth_error (candidates w) (Z.to_nat (k - 1)) = Some name
    /\ display_pgm w
       = after (listing (candidates w) ++ [input prompt])
           (try_except
              (bind (getsize w (path_of name)) (fun file_size =>
               bind (with_open w (path_of name)
                       (sniff w (path_of name) file_size))
                    (fun pixels => visualize w pixels name)))
              report).
Proof.
  intros Hpre Hpost I R L.
  assert (P : PyStr.int (pre ++ PyStr.str k ++ post) = Some k).
  { destruct k as [|q|q]; try lia. now apply int_padded_numeral. }
  destruct (selection_in_range w _ k I P R) as (name & E & S).
  exists name. split; [exact E|]. now apply selected_rest.
Qed.

End Typing.

(** ** The further properties at the fixtures *)

Lemma out_of_range_is_reported_witness :
  display_pgm (scenario_A "3")
  = (listing (candidates (scenario_A "3"))
       ++ [input prompt; print_script_error IndexError], Value tt).
Proof.
  apply (out_of_range_is_reported (scenario_A "3") "3"%string 3).
  - vm_compute. discriminate.
  - reflexivity.
  - reflexivity.
  - left. vm_compute. reflexivity.
Defined.

Lemma end_of_input_is_reported_witness :
  display_pgm closed_console
  = (listing (candidates closed_console)
       ++ [input prompt; print_script_error EOFError], Value tt).
Proof.
  apply (end_of_input_is_reported closed_console).
  - vm_compute. discriminate.
  - reflexivity.
Defined.

Lemma nonpositive_number_counts_from_the_end_witness :
  exists name,
    nth_error (candidates (scenario_A "0"))
      (Z.to_nat (0 - 1 + Z.of_nat (List.length (candidates (scenario_A "0")))))
    = Some name
    /\ display_pgm (scenario_A "0")
       = after (listing (candidates (scenario_A "0")) ++ [input prompt])
           (try_except
               (bind (getsize (scenario_A "0") (path_of name)) (fun file_size =>
                bind (with_open (scenario_A "0") (path_of name)
                        (sniff (scenario_A "0") (path_of name) file_size))
                     (fun pixels => visualize (scenario_A "0") pixels name)))
               report).
Proof.
  apply (nonpositive_number_counts_from_the_end (scenario_A "0") "0"%string 0).
  - reflexivity.
  - reflexivity.
  - vm_compute. split; [reflexivity | discriminate].
Defined.

Lemma vanished_entry_is_reported_witness :
  display_pgm gone_entry
  = (listing (candidates gone_entry)
       ++ [input prompt; os_path_getsize (path_of "a.pgm");
           print_script_error (OSError (path_of "a.pgm"))], Value tt).
Proof.
  apply (vanished_entry_is_reported gone_entry "a.pgm"%string).
  - exists "1"%string, 1. repeat split; try reflexivity.
    vm_compute. discriminate.
  - reflexivity.
Defined.

Lemma directory_entry_is_reported_witness :
  In "d.pgm"%string (candidates directory_entry)
  /\ display_pgm directory_entry
     = (listing (candidates directory_entry)
          ++ [input prompt; os_path_getsize (path_of "d.pgm");
              open_rb (path_of "d.pgm");
              print_script_error (OSError (path_of "d.pgm"))], Value tt).
Proof.
  apply (directory_entry_is_reported directory_entry
           ["d.pgm"%string] "d.pgm"%string 4096).
  - reflexivity.
  - left. reflexivity.
  - reflexivity.
  - exists "1"%string, 1. repeat split; try reflexivity.
    vm_compute. discriminate.
  - reflexivity.
Defined.

Lemma short_file_is_unknown_witness :
  display_pgm empty_file
  = (listing (candidates empty_file)
       ++ [input prompt; os_path_getsize (path_of "e.pgm");
           open_rb (path_of "e.pgm");
           read (Some 2%nat) []; seek 0%nat;
           print ("Unknown format. Size is "
                    ++ PyStr.str (Z.of_nat (List.length (@nil byte)))
                    ++ " bytes (not 76800).")%string;
           close], Returns).
Proof.
  apply (short_file_is_unknown empty_file "e.pgm"%string []).
  - exists "1"%string, 1. repeat split; try reflexivity.
    vm_compute. discriminate.
  - reflexivity.
  - simpl. lia.
Defined.

Lemma sniff_raises_only_from_the_decoder_witness :
  classify (firstn 2 [x50; x32; x0a])
           (Z.of_nat (List.length [x50; x32; x0a])) = StandardHeader
  /\ imread (failing_collaborators "1") "pgm_files/a.pgm"
     = inl (LibraryError "cannot identify image file").
Proof.
  apply (sniff_raises_only_from_the_decoder (failing_collaborators "1")
           "pgm_files/a.pgm"%string [x50; x32; x0a]
           (LibraryError "cannot identify image file")).
  reflexivity.
Defined.

Lemma error_report_is_last_witness :
  @nil (event unit) = []
  /\ snd (display_pgm (scenario_A "abc")) = Value tt
  /\ snd (view_selected (scenario_A "abc") (candidates (scenario_A "abc")))
     = Raises (ValueError_int "abc").
Proof.
  apply (error_report_is_last (scenario_A "abc")
           [print "1. a.pgm"; print "2. b.pgm"; input prompt] []
           (ValueError_int "abc")).
  reflexivity.
Defined.

Lemma file_is_closed_before_display_witness :
  exists t1 t2,
    fst (display_pgm (scenario_A "2")) = t1 ++ close :: t2
    /\ Forall (fun ev => is_display ev = false) t1
    /\ Forall (fun ev => touches_file ev = false) t2.
Proof.
  apply (file_is_closed_before_display (scenario_A "2") "b.pgm"%string
           tiny_p5).
  - exists "2"%string, 2. repeat split; try reflexivity.
    vm_compute. discriminate.
  - reflexivity.
Defined.

Lemma listed_number_views_listed_file_witness :
  nth_error (listing (ndarray := unit) (candidates (scenario_A "2"))) 1
  = Some (print (PyStr.str (Z.of_nat 1 + 1) ++ ". " ++ "b.pgm")%string)
  /\ display_pgm (scenario_A "2")
     = after (listing (candidates (scenario_A "2")) ++ [input prompt])
         (try_except
             (bind (getsize (scenario_A "2") (path_of "b.pgm")) (fun file_size =>
              bind (with_open (scenario_A "2") (path_of "b.pgm")
                      (sniff (scenario_A "2") (path_of "b.pgm") file_size))
                   (fun pixels => visualize (scenario_A "2") pixels "b.pgm")))
             report).
Proof.
  apply (listed_number_views_listed_file (scenario_A "2") 1 "b.pgm"%string).
  - reflexivity.
  - reflexivity.
  - vm_compute. lia.
Defined.


Lemma padded_number_is_accepted_witness :
  exists name,
    nth_error (candidates (scenario_A "  2 ")) (Z.to_nat (2 - 1)) = Some name
    /\ display_pgm (scenario_A "  2 ")
       = after (listing (candidates (scenario_A "  2 ")) ++ [input prompt])
           (try_except
               (bind (getsize (scenario_A "  2 ") (path_of name)) (fun file_size =>
                bind (with_open (scenario_A "  2 ") (path_of name)
                        (sniff (scenario_A "  2 ") (path_of name) file_size))
                     (fun pixels => visualize (scenario_A "  2 ") pixels name)))
               report).
Proof.
  apply (padded_number_is_accepted (scenario_A "  2 ")
           "  "%string " "%string 2).
  - reflexivity.
  - reflexivity.
  - reflexivity.
  - vm_compute. split; discriminate.
  - vm_compute. lia.
Defined.

(** The stray characters of some lines. *)
Example stray_characters :
  all_chars numeric_char "2a" = false
  /\ all_chars numeric_char "q " = false
  /\ all_chars numeric_char "0x10" = false
  /\ all_chars numeric_char " +1_0 " = true.
Proof. repeat split. Qed.
